(** * A2Vstation: Novation A-Station to V-Station patch converter

    Shallow embedding of [main] in [A2Vstation.c] and the properties of its
    read / validate / patch / write loop.

    The C program keeps three pieces of mutable state across iterations of
    its [while (fread (...) == 1)] loop: the buffer [sysExclMsg] (a block of
    [SIZE_SYSEX_BUF] bytes obtained from [malloc], so with arbitrary initial
    contents), the cursor [bufAddr] into that buffer and the integer
    [counter].  The embedding threads exactly this state through a [step]
    function, one call per byte delivered by [fread], and records every
    observable action (byte read, line printed on stdout, byte handed to a
    successful [fwrite]) in a trace.

    Bytes are integers; the source only ever compares and copies them.  The
    embedding starts where both files have been opened and the buffer has
    been allocated; the output stream is described by the number of calls of
    [fwrite] that return 1 before one does not.  What stdio has flushed to
    the file on disk by then is not part of the embedding. *)

From Stdlib Require Import ZArith String Ascii DecimalString.
From stdpp Require Import base list.

(** * The program *)

(** ** Constants ([#define]s of the source) *)

Definition SOX : Z := 0xF0.        (* Start of exclusive *)
Definition NOVID1 : Z := 0x00.     (* Novation ID 1 *)
Definition NOVID2 : Z := 0x20.     (* Novation ID 2 *)
Definition NOVID3 : Z := 0x29.     (* Novation ID 3 *)
Definition DEVTYP : Z := 0x01.     (* Device Type *)
Definition ASTNID : Z := 0x40.     (* A-Station ID *)
Definition KSTNID : Z := 0x41.     (* K-Station and V-Station ID *)
Definition MSGTYP_CUR : Z := 0x00. (* Current sound dump *)
Definition MSGTYP_PRG : Z := 0x01. (* Program dump *)
Definition MSGTYP_PAI : Z := 0x02. (* Program pair dump *)
Definition EOX : Z := 0xF7.        (* End of exclusive *)
Definition SIZE_PROGRAM_DATA : nat := 128.
Definition OFFSET_PROGRAM : nat := 13.
Definition SIZE_SYSEX_BUF : nat := SIZE_PROGRAM_DATA * 2 + OFFSET_PROGRAM + 1.

(** ** Observable actions and results *)

(** What the process does to the outside world, in program order. *)
Inductive event : Type :=
  | Fread (b : Z)          (* [fread] delivered byte [b] *)
  | Fprintf (line : string) (* [fprintf (stdout, ...)] printed [line] *)
  | Fwrite (b : Z).        (* [fwrite] put byte [b] into the output file *)

(** The [return EXIT_FAILURE] sites of the loop, with the byte each one
    reports on stderr.  Lines of the source are given for each. *)
Inductive failure : Type :=
  | NotASysexFile                          (* l.106-110 *)
  | UnknownVendorId (offset : nat) (got : Z) (* l.124-138, offsets 1, 2, 3 *)
  | UnknownDeviceType (got : Z)            (* l.141-145 *)
  | AlreadyTargetFormat                    (* l.148-152 *)
  | UnknownDeviceId (got : Z)              (* l.153-157 *)
  | WriteError.                            (* l.191-195 *)

(** How a run of [main] ends once both files are open.  [Undefined] stands
    for an access outside the [SIZE_SYSEX_BUF] bytes of [sysExclMsg]: C
    gives such a run no meaning, and nothing is claimed about it. *)
Inductive result : Type :=
  | Success (tr : list event)
  | Failure (e : failure) (tr : list event)
  | Undefined (tr : list event).

Definition trace_of (r : result) : list event :=
  match r with
  | Success tr | Failure _ tr | Undefined tr => tr
  end.

(** Bytes handed to the calls of [fwrite] that returned 1, in order. *)
Definition written (tr : list event) : list Z :=
  flat_map (fun e => match e with Fwrite b => [b] | _ => [] end) tr.

(** Bytes delivered by [fread], in order. *)
Definition reads (tr : list event) : list Z :=
  flat_map (fun e => match e with Fread b => [b] | _ => [] end) tr.

(** Lines that reached stdout, in order. *)
Definition printed (tr : list event) : list string :=
  flat_map (fun e => match e with Fprintf l => [l] | _ => [] end) tr.

(** The file traffic alone: reads and writes, stdout lines dropped. *)
Definition file_event (e : event) : Prop :=
  match e with Fprintf _ => False | _ => True end.

#[global] Instance file_event_dec (e : event) : Decision (file_event e) :=
  match e with
  | Fprintf _ => right (fun H => H)
  | Fread _ | Fwrite _ => left I
  end.

Definition io_events (tr : list event) : list event := filter file_event tr.

(** ** Program state *)

Record state : Type := State {
  buf : list Z;       (* contents of sysExclMsg[0 .. SIZE_SYSEX_BUF-1] *)
  bufAddr : nat;      (* bufAddr - sysExclMsg *)
  counter : Z;        (* int counter *)
  room : nat;         (* calls of fwrite that will still return 1 *)
  trace : list event  (* actions so far *)
}.

Inductive outcome : Type :=
  | Next (st : state)   (* the loop goes on to the next fread *)
  | Halt (r : result).  (* main has returned, or the run is undefined *)

Definition outcome_trace (o : outcome) : list event :=
  match o with
  | Next st => trace st
  | Halt r => trace_of r
  end.

(** [malloc] returns a block whose contents are indeterminate: any function
    [garbage] from offsets to bytes may describe them. *)
Definition malloc (garbage : nat -> Z) : list Z :=
  garbage <$> seq 0 SIZE_SYSEX_BUF.

Definition init (garbage : nat -> Z) (room : nat) : state :=
  State (malloc garbage) 0 (-1) room [].

(** ** Header validation (l.123-161) *)

(** The checks of the [EOX] branch, in source order; [None] when the
    last [else] (the patch) is reached. *)
Definition validate (m : list Z) : option failure :=
  if decide (m !!! 1 <> NOVID1) then Some (UnknownVendorId 1 (m !!! 1))
  else if decide (m !!! 2 <> NOVID2) then Some (UnknownVendorId 2 (m !!! 2))
  else if decide (m !!! 3 <> NOVID3) then Some (UnknownVendorId 3 (m !!! 3))
  else if decide (m !!! 4 <> DEVTYP) then Some (UnknownDeviceType (m !!! 4))
  else if decide (m !!! 5 = KSTNID) then Some AlreadyTargetFormat
  else if decide (m !!! 5 <> ASTNID) then Some (UnknownDeviceId (m !!! 5))
  else None.

(** [*(sysExclMsg+5) = KSTNID] *)
Definition patch (m : list Z) : list Z := <[5 := KSTNID]> m.

(** ** Diagnostics (l.163-187) *)

Definition nl : string := String (ascii_of_nat 10) EmptyString.

(** [%d] of a [uint8_t] promoted to [int]. *)
Definition dec (z : Z) : string := NilZero.string_of_int (Z.to_int z).

Definition describe (m : list Z) : list event :=
  if decide (m !!! 7 = MSGTYP_CUR) then
    [Fprintf ("[INFO] Current sound (edit buffer) dump" ++ nl)]
  else if decide (m !!! 7 = MSGTYP_PRG) then
    if decide (m !!! 8 = 0%Z) then
      [Fprintf ("[INFO] Current selected bank, PROGRAM NUMBER="
               ++ dec (m !!! 12) ++ nl)]
    else if decide (m !!! 8 = 1%Z) then
      [Fprintf ("[INFO] PROGRAM BANK=" ++ dec (m !!! 11)
               ++ ", PROGRAM NUMBER=" ++ dec (m !!! 12) ++ nl)]
    else []
  else if decide (m !!! 7 = MSGTYP_PAI) then
    if decide (m !!! 8 = 0%Z) then
      [Fprintf ("[INFO] PROGRAM BANK=" ++ dec (m !!! 11)
               ++ ", PROGRAM NUMBER=" ++ dec (m !!! 12)
               ++ " and " ++ dec (m !!! 12%nat + 1)%Z ++ nl)]
    else if decide (m !!! 8 = 1%Z) then
      [Fprintf ("[INFO] PROGRAM BANK=" ++ dec (m !!! 11)
               ++ ", PROGRAM NUMBER=" ++ dec (m !!! 12)
               ++ " and " ++ dec (m !!! 12%nat + 1)%Z ++ nl)]
    else []
  else [].

(** ** Messages on stderr *)

Definition hex_digit (n : Z) : ascii :=
  nth (Z.to_nat n)
      ["0"; "1"; "2"; "3"; "4"; "5"; "6"; "7";
       "8"; "9"; "a"; "b"; "c"; "d"; "e"; "f"]%char "?"%char.

(** [%02x] of a [uint8_t]: two lower-case hexadecimal digits. *)
Definition hex2 (z : Z) : string :=
  String (hex_digit (z / 16)) (String (hex_digit (z mod 16)) EmptyString).

(** The line shared by the vendor, device-type and device-ID checks. *)
Definition unknown_data (got want : Z) : string :=
  "[ERR] Unknown data (" ++ hex2 got ++ "), it should be " ++ hex2 want ++ nl.

(** The constant the check at a vendor offset compares with. *)
Definition vendor_id (offset : nat) : Z :=
  match offset with
  | 1 => NOVID1
  | 2 => NOVID2
  | _ => NOVID3
  end.

(** What [main] prints on stderr before it returns [EXIT_FAILURE]. *)
Definition stderr_line (infilename : string) (e : failure) : string :=
  match e with
  | NotASysexFile => "[ERR] " ++ infilename ++ " is not *.syx file" ++ nl
  | UnknownVendorId k got => unknown_data got (vendor_id k)
  | UnknownDeviceType got => unknown_data got DEVTYP
  | AlreadyTargetFormat =>
      "[ERR] The input data is V-Station/K-Station dump. No conversion required."
        ++ nl
  | UnknownDeviceId got => unknown_data got ASTNID
  | WriteError => "[ERR] File write error" ++ nl
  end.

(** Two failures come from the same check of the source. *)
Definition same_check (e e' : failure) : Prop :=
  match e, e' with
  | NotASysexFile, NotASysexFile => True
  | UnknownVendorId k _, UnknownVendorId k' _ => k = k'
  | UnknownDeviceType _, UnknownDeviceType _ => True
  | AlreadyTargetFormat, AlreadyTargetFormat => True
  | UnknownDeviceId _, UnknownDeviceId _ => True
  | WriteError, WriteError => True
  | _, _ => False
  end.

(** ** The write loop (l.189-196) *)

Inductive wresult : Type :=
  | WDone (room : nat) (tr : list event)
  | WStop (r : result).

(** [for (i = ...; i <= counter; i++) fwrite (sysExclMsg + i, 1, 1, ofp)]
    with [n] iterations left.  Reading [sysExclMsg[i]] is only defined for
    [i < SIZE_SYSEX_BUF]; with no [room] left, [fwrite] does not return 1. *)
Fixpoint write_loop (m : list Z) (i n room : nat) (tr : list event) : wresult :=
  match n with
  | O => WDone room tr
  | S n' =>
      if decide (SIZE_SYSEX_BUF <= i) then WStop (Undefined tr)
      else match room with
           | O => WStop (Failure WriteError tr)
           | S room' => write_loop m (S i) n' room' (tr ++ [Fwrite (m !!! i)])
           end
  end.

(** ** One iteration of the [while] loop (l.103-203) *)

(** Counter management (l.113-119). *)
Definition count (c : Z) (b : Z) : Z :=
  if decide (b = SOX) then 0%Z else (c + 1)%Z.

Definition step (st : state) (b : Z) : outcome :=
  (* fread stores the byte at *bufAddr *)
  if decide (SIZE_SYSEX_BUF <= bufAddr st) then Halt (Undefined (trace st))
  else
    let m := <[bufAddr st := b]> (buf st) in
    let tr := trace st ++ [Fread b] in
    (* Check the first byte to detect syx file or not *)
    if decide (counter st = (-1)%Z /\ b <> SOX) then Halt (Failure NotASysexFile tr)
    else
      (* Counter management *)
      let c := count (counter st) b in
      (* Process at EOX *)
      if decide (b = EOX) then
        match validate m with
        | Some e => Halt (Failure e tr)
        | None =>
            let m' := patch m in
            match write_loop m' 0 (Z.to_nat (c + 1)) (room st) (tr ++ describe m') with
            | WDone room' tr' => Next (State m' 0 c room' tr')
            | WStop r => Halt r
            end
        end
      else Next (State m (S (bufAddr st)) c (room st) tr).

(** The loop itself: [fread] returns 1 for every byte of the input and
    something else at its end, where [main] returns [ret_code], still
    [EXIT_SUCCESS]. *)
Fixpoint run (st : state) (input : list Z) : result :=
  match input with
  | [] => Success (trace st)
  | b :: rest =>
      match step st b with
      | Next st' => run st' rest
      | Halt r => r
      end
  end.

Definition transcode (garbage : nat -> Z) (room : nat) (input : list Z) : result :=
  run (init garbage room) input.

(** ** The whole of [main] (l.62-99, l.205-211) *)

(** [enum ARGS] *)
Definition ARG_POS_EXECUTABLE : nat := 0.
Definition ARG_POS_INPUTFILE : nat := 1.
Definition ARG_POS_OUTPUTFILE : nat := 2.

(** [sizeof (infilename)] and [sizeof (outfilename)] *)
Definition SIZE_FILENAME : nat := 1024.

Inductive exit_status : Type := EXIT_SUCCESS | EXIT_FAILURE.

(** A call of [fopen], whatever it returned. *)
Inductive call : Type := Fopen (filename mode : string).

(** What the C library answers to [main]: for a file name, whether
    [fopen (name, "rb")] returns a stream and which bytes [fread] then
    delivers from it; whether [fopen (name, "wb")] returns a stream and
    how many calls of [fwrite] on it then return 1; and whether [malloc] returns a
    block, with which contents. *)
Record world : Type := World {
  fopen_rb : string -> option (list Z);
  fopen_wb : string -> option nat;
  heap : option (nat -> Z)
}.

(** What a run of [main] did: in program order, the [fopen] calls, the
    actions of the loop, the lines on stderr; and the value returned by
    [main], if the run has a meaning in C at all. *)
Record report : Type := Report {
  status : option exit_status;
  opened : list call;
  loop_trace : list event;
  stderr : list string
}.

Definition usage (prog : string) : list string :=
  ["Usage: " ++ prog ++ " INPUTFILE(.syx) OUTPUTFILE(.syx)" ++ nl;
   "[Note] Supported only *.syx files, SMF(*.mid) is not supported." ++ nl]%string.

Definition open_error (filename : string) : string :=
  "[ERR] File open error (" ++ filename ++ ")" ++ nl.

(** [main].  [argc] is the length of [argv]; with no argument at all
    [argv[0]] is a null pointer and the usage line has nothing to print.
    [strncpy (..., sizeof (...))] leaves a name of [SIZE_FILENAME]
    characters or more without its terminator, and [fopen] then reads past
    the array.  The result of [malloc] is used unchecked. *)
Definition main (argv : list string) (w : world) : report :=
  match argv with
  | [] => Report None [] [] []
  | prog :: _ =>
      (* Check arguments *)
      if decide (length argv <= ARG_POS_OUTPUTFILE) then
        Report (Some EXIT_FAILURE) [] [] (usage prog)
      else
        (* Get filename *)
        let infilename := nth ARG_POS_INPUTFILE argv EmptyString in
        let outfilename := nth ARG_POS_OUTPUTFILE argv EmptyString in
        (* Open input file in binary read mode *)
        if decide (SIZE_FILENAME <= String.length infilename) then
          Report None [] [] []
        else
          match fopen_rb w infilename with
          | None =>
              Report (Some EXIT_FAILURE) [Fopen infilename "rb"] []
                     [open_error infilename]
          | Some input =>
              (* Open output file in binary write mode *)
              if decide (SIZE_FILENAME <= String.length outfilename) then
                Report None [Fopen infilename "rb"] [] []
              else
                let calls := [Fopen infilename "rb"; Fopen outfilename "wb"] in
                match fopen_wb w outfilename with
                | None =>
                    Report (Some EXIT_FAILURE) calls [] [open_error outfilename]
                | Some rm =>
                    (* Allocate memory for System Exclusive message buffer *)
                    match heap w with
                    | None => Report None calls [] []
                    | Some garbage =>
                        (* Read file *)
                        match transcode garbage rm input with
                        | Success tr => Report (Some EXIT_SUCCESS) calls tr []
                        | Failure e tr =>
                            Report (Some EXIT_FAILURE) calls tr
                                   [stderr_line infilename e]
                        | Undefined tr => Report None calls tr []
                        end
                    end
                end
          end
  end.

(** The state of the loop once it has consumed [input], if it is still
    running then. *)
Fixpoint after (st : state) (input : list Z) : option state :=
  match input with
  | [] => Some st
  | b :: rest =>
      match step st b with
      | Next st' => after st' rest
      | Halt _ => None
      end
  end.

(** [counter] is an [int] in the source and an unbounded integer here.
    The two agree as long as the counter stays in this range, which every
    state the loop reaches does (see [counter_fits_int]). *)
Definition counter_in_range (st : state) : Prop :=
  (-1 <= counter st <= Z.of_nat (bufAddr st) + Z.of_nat SIZE_SYSEX_BUF - 1)%Z
  /\ bufAddr st <= SIZE_SYSEX_BUF.

(** ** Frames *)

(** A data byte is any byte that is not one of the two markers. *)
Definition data_byte (b : Z) : Prop := b <> SOX /\ b <> EOX.

#[global] Instance data_byte_dec (b : Z) : Decision (data_byte b).
Proof. unfold data_byte. apply _. Defined.

(** The bytes of a frame: start marker, body, end marker. *)
Definition frame (body : list Z) : list Z := SOX :: body ++ [EOX].

(** The fixed part of an A-Station dump after the start marker. *)
Definition source_header : list Z := [NOVID1; NOVID2; NOVID3; DEVTYP; ASTNID].

(** A frame as the source expects it from an A-Station: properly delimited,
    no marker inside, small enough for [sysExclMsg], and accepted by the
    header checks when they are run on the frame itself. *)
Definition source_frame (F : list Z) : Prop :=
  exists body, F = frame body /\ Forall data_byte body
               /\ length F <= SIZE_SYSEX_BUF /\ validate F = None.

(** The counter after a run of bytes. *)
Definition advance (c : Z) (bs : list Z) : Z := fold_left count bs c.

(** The file traffic of one frame handled on its own: every byte of the
    frame is read, then every byte of the patched frame is written. *)
Definition frame_traffic (F : list Z) : list event :=
  (Fread <$> F) ++ (Fwrite <$> patch F).

(** ** Concrete dumps *)

(** One possible content of the block [malloc] returns. *)
Definition zeros (_ : nat) : Z := 0%Z.

(** A program dump: explicit bank 3, program 7, 128 bytes of program data. *)
Definition program_body : list Z :=
  source_header ++ [0; MSGTYP_PRG; 1; 0; 0; 3; 7]%Z ++ replicate 128 5%Z.

Definition program_dump : list Z := frame program_body.

(** A program pair dump: bank-select mode 0, bank byte 3, programs 10 and
    11, 256 bytes of program data. *)
Definition pair_body : list Z :=
  source_header ++ [0; MSGTYP_PAI; 0; 0; 0; 3; 10]%Z ++ replicate 256 5%Z.

Definition pair_dump : list Z := frame pair_body.

(** * Properties *)

Ltac unfold_consts :=
  unfold SOX, EOX, NOVID1, NOVID2, NOVID3, DEVTYP, ASTNID, KSTNID,
         MSGTYP_CUR, MSGTYP_PRG, MSGTYP_PAI in *.

(** ** Projections of a trace *)

Lemma written_app tr1 tr2 : written (tr1 ++ tr2) = written tr1 ++ written tr2.
Proof. apply flat_map_app. Qed.

Lemma printed_app tr1 tr2 : printed (tr1 ++ tr2) = printed tr1 ++ printed tr2.
Proof. apply flat_map_app. Qed.

Lemma io_events_app tr1 tr2 :
  io_events (tr1 ++ tr2) = io_events tr1 ++ io_events tr2.
Proof. apply filter_app. Qed.

Lemma written_reads bs : written (Fread <$> bs) = [].
Proof. induction bs as [|b bs IH]; [done | exact IH]. Qed.

Lemma written_writes bs : written (Fwrite <$> bs) = bs.
Proof. induction bs as [|b bs IH]; [done | simpl; f_equal; exact IH]. Qed.

Lemma printed_reads bs : printed (Fread <$> bs) = [].
Proof. induction bs as [|b bs IH]; [done | exact IH]. Qed.

Lemma printed_writes bs : printed (Fwrite <$> bs) = [].
Proof. induction bs as [|b bs IH]; [done | exact IH]. Qed.

Lemma io_events_reads bs : io_events (Fread <$> bs) = Fread <$> bs.
Proof.
  induction bs as [|b bs IH]; [done |].
  unfold io_events in *. rewrite fmap_cons, filter_cons_True by exact I.
  by rewrite IH.
Qed.

Lemma io_events_writes bs : io_events (Fwrite <$> bs) = Fwrite <$> bs.
Proof.
  induction bs as [|b bs IH]; [done |].
  unfold io_events in *. rewrite fmap_cons, filter_cons_True by exact I.
  by rewrite IH.
Qed.

(** [++] on strings is associative. *)
Lemma string_app_assoc (a b c : string) :
  ((a ++ b) ++ c = a ++ (b ++ c))%string.
Proof. induction a as [| ch a IH]; cbn; [done | by rewrite IH]. Qed.

(** The diagnostics print at most one line and touch neither file. *)
Lemma describe_cases m : describe m = [] \/ exists line, describe m = [Fprintf line].
Proof. unfold describe. repeat case_decide; eauto. Qed.

Lemma written_describe m : written (describe m) = [].
Proof. destruct (describe_cases m) as [-> | [line ->]]; done. Qed.

Lemma io_events_describe m : io_events (describe m) = [].
Proof. destruct (describe_cases m) as [-> | [line ->]]; done. Qed.

Create Rewrite HintDb written.
Create Rewrite HintDb io_events.
Create Rewrite HintDb printed.

#[global] Hint Rewrite
  written_app written_reads written_writes written_describe : written.
#[global] Hint Rewrite
  io_events_app io_events_reads io_events_writes io_events_describe : io_events.
#[global] Hint Rewrite printed_app printed_reads printed_writes : printed.

(** ** The buffer *)

Lemma length_malloc garbage : length (malloc garbage) = SIZE_SYSEX_BUF.
Proof. unfold malloc. by rewrite length_fmap, length_seq. Qed.

Lemma length_patch m : length (patch m) = length m.
Proof. apply length_insert. Qed.

Lemma patch_app F junk : 5 < length F -> patch (F ++ junk) = patch F ++ junk.
Proof. intros H. unfold patch. by rewrite insert_app_l. Qed.

Lemma patch_lookup_ne m i : i <> 5 -> patch m !! i = m !! i.
Proof. intros H. unfold patch. by rewrite list_lookup_insert_ne. Qed.

Lemma patch_lookup_eq m : 5 < length m -> patch m !! 5 = Some KSTNID.
Proof. intros H. unfold patch. by rewrite list_lookup_insert_eq. Qed.

Lemma length_frame body : length (frame body) = length body + 2.
Proof. unfold frame. simpl. rewrite length_app. simpl. lia. Qed.

Lemma init_ready garbage rm :
  bufAddr (init garbage rm) = 0
  /\ length (buf (init garbage rm)) = SIZE_SYSEX_BUF
  /\ room (init garbage rm) = rm /\ trace (init garbage rm) = [].
Proof. split; [done |]. split; [apply length_malloc | done]. Qed.

(** ** The write loop *)

(** With the indices inside the buffer and enough room in the file, the
    loop writes the [n] bytes from offset [i] on, in order. *)
Lemma write_loop_ok m n : forall i room tr,
  i + n <= SIZE_SYSEX_BUF -> i + n <= length m -> n <= room ->
  write_loop m i n room tr
  = WDone (room - n) (tr ++ (Fwrite <$> take n (drop i m))).
Proof.
  induction n as [|n IH]; intros i room tr Hsz Hlen Hroom; simpl.
  - rewrite app_nil_r. f_equal. lia.
  - case_decide; [lia |].
    destruct room as [|room]; [lia |].
    rewrite IH by lia.
    assert (Hi : m !! i = Some (m !!! i))
      by (apply list_lookup_lookup_total_lt; lia).
    rewrite (drop_S _ _ _ Hi). simpl.
    rewrite <- app_assoc. simpl. done.
Qed.

(** With too little room in the file, [fwrite] fails before the loop ends. *)
Lemma write_loop_short m n : forall i room tr,
  i + n <= SIZE_SYSEX_BUF -> room < n ->
  exists tr', write_loop m i n room tr = WStop (Failure WriteError tr').
Proof.
  induction n as [|n IH]; intros i room tr Hsz Hroom; simpl; [lia |].
  case_decide; [lia |].
  destruct room as [|room]; [eauto |].
  apply IH; lia.
Qed.

(** The loop only ever appends writes to the trace. *)
Lemma write_loop_trace m n : forall i room tr,
  exists ws,
    match write_loop m i n room tr with
    | WDone _ tr' => tr' = tr ++ (Fwrite <$> ws)
    | WStop r => trace_of r = tr ++ (Fwrite <$> ws)
    end.
Proof.
  induction n as [|n IH]; intros i room tr; simpl.
  - exists []. by rewrite app_nil_r.
  - case_decide; [exists []; simpl; by rewrite app_nil_r |].
    destruct room as [|room]; [exists []; simpl; by rewrite app_nil_r |].
    destruct (IH (S i) room (tr ++ [Fwrite (m !!! i)])) as [ws Hws].
    exists (m !!! i :: ws).
    destruct (write_loop _ _ _ _ _); rewrite Hws, <- app_assoc; done.
Qed.

(** When the loop runs to its end, every index it read was inside the
    buffer. *)
Lemma write_loop_done m n : forall i rm tr rm' tr',
  write_loop m i n rm tr = WDone rm' tr' -> n = 0 \/ i + n <= SIZE_SYSEX_BUF.
Proof.
  induction n as [|n IH]; intros i rm tr rm' tr' H; [by left | right].
  simpl in H. case_decide; [discriminate |].
  destruct rm as [|rm]; [discriminate |].
  apply IH in H. lia.
Qed.

(** ** The counter *)

Lemma count_nonneg c b : (0 <= c)%Z -> (0 <= count c b)%Z.
Proof. intros H. unfold count. case_decide; lia. Qed.

Lemma advance_nonneg bs : forall c, (0 <= c)%Z -> (0 <= advance c bs)%Z.
Proof.
  induction bs as [|b bs IH]; intros c H; [done |].
  apply IH, count_nonneg, H.
Qed.

Lemma advance_data bs : forall c,
  Forall data_byte bs -> advance c bs = (c + Z.of_nat (length bs))%Z.
Proof.
  induction bs as [|b bs IH]; intros c H; simpl; [lia |].
  inversion H as [|? ? [Hb _] Hbs]; subst.
  unfold advance in *. simpl. rewrite IH by done.
  unfold count. case_decide; [done | lia].
Qed.

(** ** Single iterations *)

(** Any byte but the end marker is stored and the cursor moves on. *)
Lemma step_store st b :
  bufAddr st < SIZE_SYSEX_BUF -> b <> EOX ->
  (counter st <> (-1)%Z \/ b = SOX) ->
  step st b = Next (State (<[bufAddr st := b]> (buf st)) (S (bufAddr st))
                          (count (counter st) b) (room st)
                          (trace st ++ [Fread b])).
Proof.
  intros Hp Hb Hc. unfold step.
  case_decide; [lia |].
  destruct (decide (_ /\ _)) as [[Hc1 Hb1] | _]; [by destruct Hc |].
  case_decide; done.
Qed.

(** The end marker triggers validation, and the write loop if it passes. *)
Lemma step_EOX st :
  bufAddr st < SIZE_SYSEX_BUF -> counter st <> (-1)%Z ->
  step st EOX =
    let m := <[bufAddr st := EOX]> (buf st) in
    let tr := trace st ++ [Fread EOX] in
    match validate m with
    | Some e => Halt (Failure e tr)
    | None =>
        match write_loop (patch m) 0 (Z.to_nat (counter st + 1 + 1))
                         (room st) (tr ++ describe (patch m)) with
        | WDone room' tr' => Next (State (patch m) 0 (counter st + 1)%Z room' tr')
        | WStop r => Halt r
        end
    end.
Proof.
  intros Hp Hc. unfold step.
  case_decide; [lia |].
  destruct (decide (_ /\ _)) as [[Hc1 _] | _]; [done |].
  case_decide; [| done].
  unfold count. case_decide; [done |]. done.
Qed.

(** The counter never leaves the range of an [int]: it is at most the
    cursor plus the size of the buffer, because the write loop has just
    used it as an index bound whenever the cursor is reset. *)
Lemma init_in_range garbage rm : counter_in_range (init garbage rm).
Proof. unfold counter_in_range, SIZE_SYSEX_BUF. simpl. lia. Qed.

Lemma step_in_range st b st' :
  counter_in_range st -> step st b = Next st' -> counter_in_range st'.
Proof.
  unfold counter_in_range, step, count. intros [Hc Hp] H.
  case_decide; [discriminate |].
  destruct (decide (_ /\ _)); [discriminate |].
  destruct (decide (b = EOX)) as [-> | Hb].
  - destruct (validate _); [discriminate |].
    destruct (write_loop _ _ _ _ _) eqn:Hw; [| discriminate].
    apply write_loop_done in Hw. revert Hw H.
    destruct (decide (EOX = SOX)) as [E | _]; [unfold_consts; discriminate E |].
    intros Hw H. injection H as <-. simpl. lia.
  - injection H as <-. simpl. case_decide; lia.
Qed.

Lemma after_in_range input : forall st st',
  counter_in_range st -> after st input = Some st' -> counter_in_range st'.
Proof.
  induction input as [|b input IH]; intros st st' Hst H; simpl in H.
  - by injection H as <-.
  - destruct (step st b) as [st1 |] eqn:Hstep; [| discriminate].
    eapply IH; [| exact H]. by eapply step_in_range.
Qed.

(** So the increment of [counter] never overflows an [int], whatever the
    input and however long it is. *)
Lemma counter_fits_int garbage rm input st :
  after (init garbage rm) input = Some st ->
  (- 2 ^ 31 <= counter st < 2 ^ 31 - 1)%Z.
Proof.
  intros H. apply after_in_range in H; [| apply init_in_range].
  revert H. unfold counter_in_range, SIZE_SYSEX_BUF. simpl. lia.
Qed.

(** ** Runs of bytes *)

Lemma data_byte_not_EOX bs :
  Forall data_byte bs -> Forall (fun b => b <> EOX) bs.
Proof. intros H. eapply Forall_impl; [exact H |]. by intros b [_ ?]. Qed.

(** Loading: bytes other than the end marker overwrite the buffer from the
    cursor on, whatever was there. *)
Lemma run_load bs : forall pre old c rm tr rest,
  Forall (fun b => b <> EOX) bs -> (0 <= c)%Z ->
  length bs <= length old -> length pre + length old <= SIZE_SYSEX_BUF ->
  run (State (pre ++ old) (length pre) c rm tr) (bs ++ rest)
  = run (State ((pre ++ bs) ++ drop (length bs) old) (length (pre ++ bs))
               (advance c bs) rm (tr ++ (Fread <$> bs))) rest.
Proof.
  induction bs as [|b bs IH]; intros pre old c rm tr rest Hbs Hc Hlen Hsz.
  - simpl. by rewrite !app_nil_r.
  - inversion Hbs as [|? ? Hb Hbs']; subst.
    destruct old as [|x old]; [simpl in Hlen; lia |].
    simpl in Hlen, Hsz. simpl run.
    rewrite step_store; simpl; [| lia | done | lia].
    replace (<[length pre := b]> (pre ++ x :: old)) with ((pre ++ [b]) ++ old).
    2:{ rewrite insert_app_r_alt by lia.
        rewrite Nat.sub_diag. simpl. by rewrite <- app_assoc. }
    replace (S (length pre)) with (length (pre ++ [b]))
      by (rewrite length_app; simpl; lia).
    rewrite IH; [| done | by apply count_nonneg | lia | rewrite length_app; simpl; lia].
    f_equal. f_equal.
    + by rewrite <- !app_assoc.
    + by rewrite <- !app_assoc.
    + by rewrite <- app_assoc.
Qed.

(** A region: bytes without an end marker, then the end marker.  The header
    checks look at whatever offsets 1 to 5 of the buffer hold by then. *)
Lemma run_region pre bs old st rest :
  buf st = pre ++ old -> bufAddr st = length pre -> (0 <= counter st)%Z ->
  Forall (fun b => b <> EOX) bs ->
  length bs < length old -> length pre + length old <= SIZE_SYSEX_BUF ->
  run st (bs ++ EOX :: rest) =
    let m := (pre ++ bs) ++ EOX :: drop (S (length bs)) old in
    let c := (advance (counter st) bs + 1)%Z in
    let tr := trace st ++ (Fread <$> (bs ++ [EOX])) in
    match validate m with
    | Some e => Failure e tr
    | None =>
        match write_loop (patch m) 0 (Z.to_nat (c + 1)) (room st)
                         (tr ++ describe (patch m)) with
        | WDone room' tr' => run (State (patch m) 0 c room' tr') rest
        | WStop r => r
        end
    end.
Proof.
  intros Hbuf Hp Hc Hbs Hlen Hsz.
  destruct st as [m0 p c rm tr]; simpl in *; subst m0 p.
  rewrite run_load by (done || lia).
  assert (Hd : exists x, drop (length bs) old = x :: drop (S (length bs)) old).
  { destruct (lookup_lt_is_Some_2 old (length bs) Hlen) as [x Hx].
    exists x. by apply drop_S. }
  destruct Hd as [x Hd]. rewrite Hd.
  simpl run. rewrite step_EOX; simpl.
  2:{ rewrite length_app. lia. }
  2:{ pose proof (advance_nonneg bs c Hc). lia. }
  replace (<[length (pre ++ bs) := EOX]> ((pre ++ bs) ++ x :: drop (S (length bs)) old))
    with ((pre ++ bs) ++ EOX :: drop (S (length bs)) old).
  2:{ rewrite insert_app_r_alt by lia. by rewrite Nat.sub_diag. }
  rewrite fmap_app, <- !app_assoc. simpl.
  destruct (validate _); [done |].
  destruct (write_loop _ _ _ _ _); done.
Qed.

(** ** Header validation *)

(** The checks pass exactly when the five header bytes hold the expected
    constants, the last one being the A-Station's. *)
Lemma validate_None_iff m :
  validate m = None <->
  m !!! 1 = NOVID1 /\ m !!! 2 = NOVID2 /\ m !!! 3 = NOVID3
  /\ m !!! 4 = DEVTYP /\ m !!! 5 = ASTNID.
Proof.
  unfold validate. unfold_consts.
  repeat case_decide; split; try done; lia.
Qed.

(** A delimited region that passes the checks starts with the A-Station
    header: the end marker cannot sit at offsets 1 to 5. *)
Lemma validate_frame_inv body junk :
  validate (frame body ++ junk) = None ->
  exists payload, body = source_header ++ payload.
Proof.
  rewrite validate_None_iff. unfold frame, source_header.
  destruct body as [|b1 [|b2 [|b3 [|b4 [|b5 payload]]]]]; simpl;
    intros (H1 & H2 & H3 & H4 & H5); try (unfold_consts; discriminate).
  exists payload. congruence.
Qed.

(** The checks on a delimited frame at the start of the buffer never look
    past its end marker: they are the checks on the frame itself. *)
Lemma validate_frame_app body junk :
  validate (frame body ++ junk) = validate (frame body).
Proof.
  unfold validate, frame.
  destruct body as [|b1 [|b2 [|b3 [|b4 [|b5 payload]]]]]; simpl;
    repeat case_decide; first [done | exfalso; unfold_consts; lia].
Qed.

Lemma validate_source payload junk :
  validate (frame (source_header ++ payload) ++ junk) = None.
Proof. apply validate_None_iff. done. Qed.

(** After the patch the same region is refused as already converted. *)
Lemma validate_patched payload junk :
  validate (patch (frame (source_header ++ payload)) ++ junk)
  = Some AlreadyTargetFormat.
Proof. done. Qed.

(** The vendor triple of a delimited frame, as the checks see it once the
    frame sits at the start of the buffer.  A frame too short to have all
    three bytes has its end marker in their place. *)
Lemma validate_vendor_frame body junk :
  frame body !! 1 <> Some NOVID1 \/ frame body !! 2 <> Some NOVID2
  \/ frame body !! 3 <> Some NOVID3 ->
  exists k x, validate (frame body ++ junk) = Some (UnknownVendorId k x)
              /\ 1 <= k <= 3 /\ frame body !! k = Some x.
Proof.
  intros H. unfold validate, frame in *.
  destruct body as [|b1 [|b2 [|b3 body]]]; simpl in *;
    repeat case_decide;
    try (eexists _, _; split; [reflexivity | split; [lia | reflexivity]]);
    exfalso; unfold_consts;
    try lia; destruct H as [H | [H | H]]; apply H; f_equal; lia.
Qed.

(** Bytes in front of a start marker move it away from offset 0.  With
    one to three of them the marker itself sits at a vendor offset, and no
    vendor byte equals it; with more, the vendor offsets hold stray bytes. *)
Lemma validate_strays strays rear :
  strays <> [] -> take 3 (drop 1 strays) <> [NOVID1; NOVID2; NOVID3] ->
  exists k x, validate (strays ++ SOX :: rear) = Some (UnknownVendorId k x)
              /\ 1 <= k <= 3 /\ k <= length strays
              /\ (strays ++ [SOX]) !! k = Some x.
Proof.
  intros Hne Hvendor. unfold validate.
  destruct strays as [|s1 [|s2 [|s3 [|s4 strays]]]]; simpl in *; [done | ..];
    repeat case_decide;
    try (eexists _, _; split; [reflexivity | split; [lia | split; [lia | reflexivity]]]);
    exfalso; try (unfold_consts; lia).
  all: apply Hvendor; rewrite take_0; congruence.
Qed.

Lemma source_frame_inv F :
  source_frame F ->
  exists payload, F = frame (source_header ++ payload)
                  /\ Forall data_byte payload
                  /\ length F <= SIZE_SYSEX_BUF.
Proof.
  intros (body & -> & Hdata & Hlen & Hval).
  rewrite <- (app_nil_r (frame body)) in Hval.
  apply validate_frame_inv in Hval as [payload ->].
  exists payload. split; [done |]. split; [| done].
  by apply Forall_app in Hdata as [_ ?].
Qed.

Lemma source_frame_long F : source_frame F -> 6 < length F.
Proof.
  intros H. apply source_frame_inv in H as (payload & -> & _ & _).
  rewrite length_frame, length_app. simpl. lia.
Qed.

Lemma source_frame_device_id F : source_frame F -> F !! 5 = Some ASTNID.
Proof. intros H. by apply source_frame_inv in H as (payload & -> & _). Qed.

Lemma program_dump_source : source_frame program_dump.
Proof.
  eexists. split; [reflexivity |].
  split; [compute_done |]. split; [compute_done | reflexivity].
Qed.

Lemma pair_dump_source : source_frame pair_dump.
Proof.
  eexists. split; [reflexivity |].
  split; [compute_done |]. split; [compute_done | reflexivity].
Qed.

(** The lines printed by different checks differ, whatever byte each of
    them reports: the vendor, device-type and device-ID checks name the
    constant they wanted, and the already-converted case has its own text. *)
Lemma validate_stderr_distinct name m1 m2 e1 e2 :
  validate m1 = Some e1 -> validate m2 = Some e2 ->
  stderr_line name e1 = stderr_line name e2 -> same_check e1 e2.
Proof.
  unfold validate. intros H1 H2.
  repeat case_decide; simplify_eq;
    try exact (fun _ => I); try (intros _; reflexivity).
  all: simpl; intros Hmsg; discriminate Hmsg.
Qed.

(** ** Diagnostics *)

(** The line depends on offsets 7, 8, 11 and 12 of the buffer and on
    nothing else. *)
Lemma describe_ext m m' :
  m !!! 7 = m' !!! 7 -> m !!! 8 = m' !!! 8 ->
  m !!! 11 = m' !!! 11 -> m !!! 12 = m' !!! 12 ->
  describe m = describe m'.
Proof. intros H7 H8 H11 H12. unfold describe. by rewrite H7, H8, H11, H12. Qed.

(** For a frame that has those offsets, they are read from the frame: the
    patch does not touch them and the rest of the buffer is not looked at. *)
Lemma describe_frame F junk :
  12 < length F -> describe (patch F ++ junk) = describe F.
Proof.
  intros Hlen.
  assert (H : forall i, i < length F -> i <> 5 -> (patch F ++ junk) !!! i = F !!! i).
  { intros i Hi Hne. rewrite lookup_total_app_l by (rewrite length_patch; lia).
    unfold patch. by rewrite list_lookup_total_insert_ne. }
  apply describe_ext; apply H; lia.
Qed.

(** ** Whole frames *)

(** A delimited frame read with the cursor at the start of the buffer:
    the checks see the bytes of the frame, and the write loop covers
    exactly the frame. *)
Lemma run_frame st body rest :
  bufAddr st = 0 -> length (buf st) = SIZE_SYSEX_BUF ->
  Forall data_byte body -> length (frame body) <= SIZE_SYSEX_BUF ->
  run st (frame body ++ rest) =
    let m := frame body ++ drop (length (frame body)) (buf st) in
    let tr := trace st ++ (Fread <$> frame body) in
    match validate m with
    | Some e => Failure e tr
    | None =>
        match write_loop (patch m) 0 (length (frame body)) (room st)
                         (tr ++ describe (patch m)) with
        | WDone room' tr' =>
            run (State (patch m) 0 (Z.of_nat (length body) + 1)%Z room' tr') rest
        | WStop r => r
        end
    end.
Proof.
  intros Hp Hlen Hdata Hfit.
  destruct st as [m0 p c rm tr]; cbn [bufAddr buf room trace counter] in *; subst p.
  destruct m0 as [|x old]; [done |].
  cbv zeta.
  change (frame body ++ rest) with (SOX :: (body ++ [EOX]) ++ rest).
  cbn [run]. rewrite step_store; cbn [bufAddr buf room trace counter];
    [| unfold SIZE_SYSEX_BUF; simpl; lia | done | by right].
  rewrite <- app_assoc.
  change ([EOX] ++ rest) with (EOX :: rest).
  change (<[0:=SOX]> (x :: old)) with ([SOX] ++ old).
  rewrite length_frame in Hfit. cbn [length] in Hlen.
  rewrite (run_region [SOX] body old); cbn [bufAddr buf room trace counter];
    [| done | done | done | by apply data_byte_not_EOX | lia | cbn [length]; lia].
  cbv zeta.
  rewrite advance_data by done.
  change (count c SOX) with 0%Z.
  assert (Hm : ([SOX] ++ body) ++ EOX :: drop (S (length body)) old
               = frame body ++ drop (length (frame body)) (x :: old)).
  { rewrite length_frame.
    replace (length body + 2) with (S (S (length body))) by lia.
    unfold frame. cbn [drop app]. by rewrite <- app_assoc. }
  assert (Ht : (tr ++ [Fread SOX]) ++ (Fread <$> body ++ [EOX])
               = tr ++ (Fread <$> frame body)).
  { unfold frame. rewrite fmap_cons, <- app_assoc. done. }
  rewrite Hm, Ht.
  replace (Z.to_nat (0 + Z.of_nat (length body) + 1 + 1)) with (length (frame body))
    by (rewrite length_frame; lia).
  replace (0 + Z.of_nat (length body) + 1)%Z with (Z.of_nat (length body) + 1)%Z by lia.
  done.
Qed.

(** A source frame read with the cursor at the start of the buffer is
    patched, described and written out whole; the loop then waits for the
    next byte with the cursor back at the start. *)
Lemma run_source_frame st F rest :
  source_frame F -> bufAddr st = 0 -> length (buf st) = SIZE_SYSEX_BUF ->
  length F <= room st ->
  run st (F ++ rest)
  = run (State (patch F ++ drop (length F) (buf st)) 0
               (Z.of_nat (length F) - 1)%Z (room st - length F)
               (trace st ++ (Fread <$> F)
                  ++ describe (patch F ++ drop (length F) (buf st))
                  ++ (Fwrite <$> patch F))) rest.
Proof.
  intros HF Hp Hlen Hroom.
  pose proof (source_frame_long F HF) as Hlong.
  destruct HF as (body & -> & Hdata & Hfit & Hval).
  rewrite run_frame by done. cbv zeta.
  rewrite <- (app_nil_r (frame body)) in Hval.
  destruct (validate_frame_inv _ _ Hval) as [payload ->].
  rewrite validate_source.
  set (F := frame (source_header ++ payload)) in *.
  rewrite patch_app by lia.
  assert (Hm : length (patch F ++ drop (length F) (buf st)) = SIZE_SYSEX_BUF).
  { rewrite length_app, length_patch, length_drop. lia. }
  rewrite write_loop_ok by lia.
  rewrite drop_0, take_app_length' by (by rewrite length_patch).
  f_equal. f_equal.
  - unfold F. rewrite length_frame. lia.
  - by rewrite <- !app_assoc.
Qed.

(** A start marker and data bytes with no end marker behind them are read
    into the buffer and nothing else happens before the input ends. *)
Lemma run_truncated st body :
  bufAddr st = 0 -> length (buf st) = SIZE_SYSEX_BUF ->
  Forall data_byte body -> S (length body) <= SIZE_SYSEX_BUF ->
  run st (SOX :: body) = Success (trace st ++ (Fread <$> SOX :: body)).
Proof.
  intros Hp Hlen Hdata Hfit.
  destruct st as [m0 p c rm tr]; cbn [bufAddr buf room trace counter] in *; subst p.
  destruct m0 as [|x old]; [done |]. cbn [length] in Hlen.
  cbn [run]. rewrite step_store; cbn [bufAddr buf room trace counter];
    [| lia | done | by right].
  change (<[0:=SOX]> (x :: old)) with ([SOX] ++ old).
  rewrite <- (app_nil_r body) at 1.
  rewrite (run_load body [SOX] old);
    [| by apply data_byte_not_EOX | done | lia | cbn [length]; lia].
  cbn [run trace]. by rewrite fmap_cons, <- app_assoc.
Qed.

(** ** Traces only grow *)

(** Bytes reach the output file only in an iteration that read the end
    marker and whose header checks all passed. *)
Lemma step_written st b :
  (b = EOX /\ validate (<[bufAddr st := b]> (buf st)) = None)
  \/ written (outcome_trace (step st b)) = written (trace st).
Proof.
  unfold step.
  case_decide; [by right |].
  case_decide; [right; simpl; rewrite written_app; simpl; by rewrite app_nil_r |].
  case_decide as Hb.
  - destruct (validate _) eqn:Hv; [| by left].
    right. simpl. rewrite written_app. simpl. by rewrite app_nil_r.
  - right. simpl. rewrite written_app. simpl. by rewrite app_nil_r.
Qed.

Lemma step_trace st b : exists s, outcome_trace (step st b) = trace st ++ s.
Proof.
  unfold step.
  case_decide; [exists []; simpl; by rewrite app_nil_r |].
  case_decide; [by eexists |].
  case_decide; [| by eexists].
  destruct (validate _); [by eexists |].
  match goal with
  | |- context [write_loop ?m ?i ?n ?r ?t] =>
      destruct (write_loop_trace m n i r t) as [ws Hws];
      destruct (write_loop m i n r t)
  end; simpl; rewrite Hws, <- !app_assoc; by eexists.
Qed.

Lemma run_trace input : forall st,
  exists s, trace_of (run st input) = trace st ++ s.
Proof.
  induction input as [|b input IH]; intros st; simpl.
  - exists []. by rewrite app_nil_r.
  - destruct (step_trace st b) as [s Hs].
    destruct (step st b) as [st' | r]; simpl in Hs.
    + destruct (IH st') as [s' Hs']. rewrite Hs', Hs, <- app_assoc. by eexists.
    + by eexists.
Qed.

(** ** Streams of frames *)

(** Back-to-back source frames are handled one after the other: each is
    read whole, then written whole, before the next byte is read. *)
Lemma run_frames Fs : forall st rest,
  Forall source_frame Fs -> bufAddr st = 0 ->
  length (buf st) = SIZE_SYSEX_BUF -> length (concat Fs) <= room st ->
  exists st',
    run st (concat Fs ++ rest) = run st' rest
    /\ bufAddr st' = 0 /\ length (buf st') = SIZE_SYSEX_BUF
    /\ written (trace st') = written (trace st) ++ concat (patch <$> Fs)
    /\ io_events (trace st')
       = io_events (trace st)
           ++ concat (frame_traffic <$> Fs).
Proof.
  induction Fs as [|F Fs IH]; intros st rest HFs Hp Hlen Hroom.
  - exists st. simpl. by rewrite !app_nil_r.
  - inversion HFs as [|? ? HF HFs']; subst.
    simpl in Hroom. rewrite length_app in Hroom.
    pose proof (source_frame_long F HF) as Hlong.
    assert (Hfit : length F <= SIZE_SYSEX_BUF)
      by (destruct HF as (? & _ & _ & ? & _); done).
    simpl concat. rewrite <- app_assoc.
    rewrite run_source_frame by (done || lia).
    match goal with |- context [run ?s (concat Fs ++ rest)] => set (st1 := s) end.
    destruct (IH st1 rest) as (st' & Hrun & Hp' & Hlen' & Hw & Hio).
    + done.
    + done.
    + unfold st1. simpl.
      rewrite length_app, length_patch, length_drop. lia.
    + unfold st1. simpl. lia.
    + exists st'. split; [done |]. split; [done |]. split; [done |].
      unfold st1 in Hw, Hio. simpl in Hw, Hio. split.
      * rewrite Hw. autorewrite with written. simpl. by rewrite <- app_assoc.
      * rewrite Hio. autorewrite with io_events. simpl.
        unfold frame_traffic. by rewrite <- !app_assoc.
Qed.

(** * The claims *)

(** C1.  For every frame that passes the header checks (so whose
    device/model ID byte at offset 5 is the A-Station's 0x40), the bytes
    written to the output are the bytes of the frame with offset 5 replaced
    by the V-Station's 0x41: the length is the same, every other offset
    holds the byte it held, and so does the program data from offset 13 on.
    The frame is one the buffer can hold, and the output file takes it. *)
Theorem transcode_patches_device_id garbage rm F :
  source_frame F -> length F <= rm ->
  exists tr,
    transcode garbage rm F = Success tr
    /\ written tr = <[5 := KSTNID]> F
    /\ length (written tr) = length F
    /\ F !! 5 = Some ASTNID /\ written tr !! 5 = Some KSTNID
    /\ (forall i, i <> 5 -> written tr !! i = F !! i)
    /\ drop OFFSET_PROGRAM (written tr) = drop OFFSET_PROGRAM F.
Proof.
  intros HF Hroom.
  pose proof (source_frame_long F HF) as Hlong.
  destruct (init_ready garbage rm) as (Hp & Hlen & Hrm & Htr).
  unfold transcode.
  replace (run (init garbage rm) F) with (run (init garbage rm) (F ++ []))
    by (by rewrite app_nil_r).
  rewrite run_source_frame by (done || lia).
  eexists. split; [reflexivity |].
  cbn [trace]. rewrite Htr.
  autorewrite with written.
  cbn [written flat_map app]. fold (patch F).
  split; [done |]. split; [apply length_patch |].
  split; [by apply source_frame_device_id |].
  split; [apply patch_lookup_eq; lia |].
  split; [intros i Hi; by apply patch_lookup_ne |].
  unfold patch, OFFSET_PROGRAM. apply drop_insert_lt. lia.
Qed.

Lemma transcode_patches_device_id_witness :
  source_frame program_dump /\ length program_dump <= 142
  /\ exists tr,
       transcode zeros 142 program_dump = Success tr
       /\ written tr = <[5 := KSTNID]> program_dump
       /\ length (written tr) = length program_dump
       /\ program_dump !! 5 = Some ASTNID /\ written tr !! 5 = Some KSTNID
       /\ (forall i, i <> 5 -> written tr !! i = program_dump !! i)
       /\ drop OFFSET_PROGRAM (written tr) = drop OFFSET_PROGRAM program_dump.
Proof.
  split; [exact program_dump_source |]. split; [compute_done |].
  apply (transcode_patches_device_id zeros 142 program_dump);
    [exact program_dump_source | compute_done].
Defined.

(** C2, as the source has it.  For every input that starts with a
    delimited frame fitting the buffer and on which the run succeeds, a
    second run on the bytes written by the first fails with "no conversion
    required" at the end of the first frame, and writes nothing: offset 5 of
    that frame now holds 0x41. *)
Theorem reconversion_refused garbage rm garbage' rm' body rest tr :
  Forall data_byte body -> length (frame body) <= SIZE_SYSEX_BUF ->
  transcode garbage rm (frame body ++ rest) = Success tr ->
  exists tr',
    transcode garbage' rm' (written tr) = Failure AlreadyTargetFormat tr'
    /\ written tr' = [].
Proof.
  intros Hdata Hfit Hrun.
  destruct (init_ready garbage rm) as (Hp & Hlen & Hrm & Htr).
  (* the first frame passed the checks *)
  assert (Hval : validate (frame body ++ drop (length (frame body))
                                          (buf (init garbage rm))) = None).
  { unfold transcode in Hrun. rewrite run_frame in Hrun by done.
    cbv zeta in Hrun. by destruct (validate _). }
  destruct (validate_frame_inv _ _ Hval) as [payload ->].
  set (F := frame (source_header ++ payload)) in *.
  (* and the file took all of it *)
  assert (Hroom : length F <= rm).
  { destruct (decide (length F <= rm)) as [|Hshort]; [done |]. exfalso.
    unfold transcode, F in Hrun. rewrite run_frame in Hrun by done.
    cbv zeta in Hrun. fold F in Hrun. rewrite Hval in Hrun.
    match type of Hrun with
    | context [write_loop ?m 0 ?n ?r ?t] =>
        destruct (write_loop_short m n 0 r t) as [tr1 Hw];
          [rewrite Nat.add_0_l; exact Hfit | rewrite Hrm; lia |]
    end.
    rewrite Hw in Hrun. discriminate. }
  assert (HF : source_frame F).
  { exists (source_header ++ payload). repeat split; done. }
  (* so the output starts with the patched frame *)
  assert (Hout : exists w, written tr = patch F ++ w).
  { unfold transcode in Hrun. rewrite run_source_frame in Hrun by (done || lia).
    match type of Hrun with
    | run ?s rest = _ => destruct (run_trace rest s) as [s' Hs]
    end.
    rewrite Hrun in Hs. cbn [trace_of trace] in Hs. rewrite Hs, Htr.
    autorewrite with written.
    by eexists. }
  destruct Hout as [w ->].
  (* which the second run refuses *)
  destruct (init_ready garbage' rm') as (Hp' & Hlen' & _ & Htr').
  change (patch F)
    with (frame ([NOVID1; NOVID2; NOVID3; DEVTYP; KSTNID] ++ payload)).
  unfold transcode. rewrite run_frame; cbv zeta.
  - change (frame ([NOVID1; NOVID2; NOVID3; DEVTYP; KSTNID] ++ payload))
      with (patch F).
    unfold F. rewrite validate_patched.
    eexists. split; [reflexivity |].
    rewrite Htr', written_app, written_reads. done.
  - done.
  - done.
  - apply Forall_app in Hdata as [_ Hpay].
    apply Forall_app. split; [| done].
    repeat constructor; unfold_consts; lia.
  - unfold F in Hfit. rewrite length_frame in *.
    rewrite length_app in *. simpl in *. lia.
Qed.

Lemma reconversion_refused_witness :
  Forall data_byte (program_body)
  /\ length (frame (program_body)) <= SIZE_SYSEX_BUF
  /\ (exists tr,
        transcode zeros 500 (frame (program_body) ++ pair_dump)
        = Success tr
        /\ exists tr',
             transcode zeros 0 (written tr) = Failure AlreadyTargetFormat tr'
             /\ written tr' = []).
Proof.
  split; [compute_done |]. split; [compute_done |].
  eexists. split; [vm_compute; reflexivity |].
  apply (reconversion_refused zeros 500 zeros 0
           (program_body) pair_dump);
    [compute_done | compute_done | vm_compute; reflexivity].
Defined.

(** C2 as stated fails on inputs the run accepts without ever completing a
    well-formed frame.  The empty input succeeds and so does a second run
    on its (empty) output; a region with a second start marker inside is
    accepted, two bytes are written, and the second run succeeds on them. *)
Lemma reconversion_accepted :
  (exists tr,
     transcode zeros 0 [] = Success tr
     /\ transcode zeros 0 (written tr) = Success [])
  /\ (exists tr,
        transcode zeros 8 [SOX; NOVID1; NOVID2; NOVID3; DEVTYP; ASTNID; SOX; EOX]
        = Success tr
        /\ written tr = [SOX; NOVID1]
        /\ transcode zeros 8 (written tr) = Success [Fread SOX; Fread NOVID1]).
Proof.
  split.
  - exists []. split; reflexivity.
  - eexists. split; [vm_compute; reflexivity |]. split; vm_compute; reflexivity.
Qed.

(** C3, as the source has it.  For every input made of source frames
    followed by a truncated final frame (a start marker and data bytes that
    fit the buffer, the input ending before any end marker), no byte of the
    truncated frame is written: the output is exactly the patched frames
    before it.  The loop has no check at the end of the input, so the run
    returns success. *)
Theorem truncated_frame_dropped garbage rm Fs body :
  Forall source_frame Fs -> length (concat Fs) <= rm ->
  Forall data_byte body -> S (length body) <= SIZE_SYSEX_BUF ->
  exists tr,
    transcode garbage rm (concat Fs ++ SOX :: body) = Success tr
    /\ written tr = concat (patch <$> Fs).
Proof.
  intros HFs Hroom Hdata Hfit.
  destruct (init_ready garbage rm) as (Hp & Hlen & Hrm & Htr).
  destruct (run_frames Fs (init garbage rm) (SOX :: body) HFs Hp Hlen)
    as (st' & Hrun & Hp' & Hlen' & Hw & _); [lia |].
  unfold transcode. rewrite Hrun, run_truncated by done.
  eexists. split; [reflexivity |].
  rewrite written_app, written_reads, Hw, Htr. simpl. by rewrite app_nil_r.
Qed.

Lemma truncated_frame_dropped_witness :
  let body := take 100 (source_header ++ [0; MSGTYP_PRG; 1; 0; 0; 3; 8]%Z
                          ++ replicate 128 5%Z) in
  Forall source_frame [program_dump] /\ length (concat [program_dump]) <= 142
  /\ Forall data_byte body /\ S (length body) <= SIZE_SYSEX_BUF
  /\ exists tr,
       transcode zeros 142 (concat [program_dump] ++ SOX :: body) = Success tr
       /\ written tr = concat (patch <$> [program_dump]).
Proof.
  assert (HFs : Forall source_frame [program_dump])
    by (repeat constructor; exact program_dump_source).
  split; [exact HFs |]. split; [compute_done |].
  split; [compute_done |]. split; [compute_done |].
  apply (truncated_frame_dropped zeros 142 [program_dump]
           (take 100 (source_header ++ [0; MSGTYP_PRG; 1; 0; 0; 3; 8]%Z
                        ++ replicate 128 5%Z)));
    [exact HFs | compute_done | compute_done | compute_done].
Defined.

(** C3 as stated fails: a start marker and two header bytes, then the end
    of the input.  The run returns success and reports no failure. *)
Lemma truncated_frame_no_error :
  transcode zeros 0 [SOX; NOVID1; NOVID2]
  = Success [Fread SOX; Fread NOVID1; Fread NOVID2]
  /\ ~ (exists e tr, transcode zeros 0 [SOX; NOVID1; NOVID2] = Failure e tr).
Proof.
  assert (H : transcode zeros 0 [SOX; NOVID1; NOVID2]
              = Success [Fread SOX; Fread NOVID1; Fread NOVID2])
    by (vm_compute; reflexivity).
  split; [exact H |].
  intros (e & tr & He). rewrite H in He. discriminate.
Qed.

(** C4.  For every delimited frame that fits the buffer and whose vendor ID
    triple at offsets 1-3 differs from (0x00, 0x20, 0x29) at any of the
    three positions, the run fails with the vendor-ID failure, reported for
    the first offending offset and byte, and no byte is written. *)
Theorem vendor_mismatch_fails garbage rm body rest :
  Forall data_byte body -> length (frame body) <= SIZE_SYSEX_BUF ->
  frame body !! 1 <> Some NOVID1 \/ frame body !! 2 <> Some NOVID2
  \/ frame body !! 3 <> Some NOVID3 ->
  exists k x tr,
    transcode garbage rm (frame body ++ rest) = Failure (UnknownVendorId k x) tr
    /\ written tr = []
    /\ 1 <= k <= 3 /\ frame body !! k = Some x.
Proof.
  intros Hdata Hfit Hvendor.
  destruct (init_ready garbage rm) as (Hp & Hlen & _ & Htr).
  unfold transcode. rewrite run_frame by done. cbv zeta.
  destruct (validate_vendor_frame body
              (drop (length (frame body)) (buf (init garbage rm))) Hvendor)
    as (k & x & -> & Hk & Hx).
  exists k, x. eexists. split; [reflexivity |].
  rewrite Htr. rewrite written_app, written_reads. done.
Qed.

Lemma vendor_mismatch_fails_witness :
  let body := [0x00; 0x20; 0x2A; 0x01; 0x40; 0x00; 0x00]%Z in
  Forall data_byte body /\ length (frame body) <= SIZE_SYSEX_BUF
  /\ (frame body !! 1 <> Some NOVID1 \/ frame body !! 2 <> Some NOVID2
      \/ frame body !! 3 <> Some NOVID3)
  /\ exists k x tr,
       transcode zeros 9 (frame body ++ program_dump)
       = Failure (UnknownVendorId k x) tr
       /\ written tr = []
       /\ 1 <= k <= 3 /\ frame body !! k = Some x.
Proof.
  assert (Hv : frame [0x00; 0x20; 0x2A; 0x01; 0x40; 0x00; 0x00]%Z !! 3
               <> Some NOVID3) by compute_done.
  split; [compute_done |]. split; [compute_done |].
  split; [right; right; exact Hv |].
  apply (vendor_mismatch_fails zeros 9
           [0x00; 0x20; 0x2A; 0x01; 0x40; 0x00; 0x00]%Z program_dump);
    [compute_done | compute_done | right; right; exact Hv].
Defined.

(** C5.  For every input made of N source frames back to back, the run
    succeeds and the output is the N frames in the same order, each with
    offset 5 (which held the A-Station's 0x40) set to the V-Station's 0x41
    and every other byte as it was.  The file traffic is, frame after
    frame, the reads of the whole frame followed by the writes of the whole
    patched frame: frame N is written in full before the first byte of
    frame N+1 is read. *)
Theorem frames_transcoded_in_order garbage rm Fs :
  Forall source_frame Fs -> length (concat Fs) <= rm ->
  exists tr,
    transcode garbage rm (concat Fs) = Success tr
    /\ Forall (fun F => F !! 5 = Some ASTNID) Fs
    /\ written tr = concat ((fun F => <[5 := KSTNID]> F) <$> Fs)
    /\ io_events tr
       = concat ((fun F => (Fread <$> F) ++ (Fwrite <$> <[5 := KSTNID]> F))
                   <$> Fs).
Proof.
  intros HFs Hroom.
  destruct (init_ready garbage rm) as (Hp & Hlen & Hrm & Htr).
  destruct (run_frames Fs (init garbage rm) [] HFs Hp Hlen)
    as (st' & Hrun & _ & _ & Hw & Hio); [lia |].
  rewrite app_nil_r in Hrun. rewrite Htr in Hw, Hio.
  exists (trace st'). unfold transcode. rewrite Hrun.
  split; [done |].
  split; [eapply Forall_impl; [exact HFs | apply source_frame_device_id] |].
  split; [exact Hw | exact Hio].
Qed.

Lemma frames_transcoded_in_order_witness :
  let Fs := [program_dump; pair_dump; program_dump] in
  Forall source_frame Fs /\ length (concat Fs) <= 554
  /\ exists tr,
       transcode zeros 554 (concat Fs) = Success tr
       /\ Forall (fun F => F !! 5 = Some ASTNID) Fs
       /\ written tr = concat ((fun F => <[5 := KSTNID]> F) <$> Fs)
       /\ io_events tr
          = concat ((fun F => (Fread <$> F) ++ (Fwrite <$> <[5 := KSTNID]> F))
                      <$> Fs).
Proof.
  assert (HFs : Forall source_frame [program_dump; pair_dump; program_dump]).
  { repeat constructor;
      [exact program_dump_source | exact pair_dump_source | exact program_dump_source]. }
  split; [exact HFs |]. split; [compute_done |].
  apply (frames_transcoded_in_order zeros 554
           [program_dump; pair_dump; program_dump]);
    [exact HFs | compute_done].
Defined.

(** C6, as the source has it.  For every source frame long enough to have
    offsets 7 to 12, exactly the line chosen by Message Type (offset 7),
    bank-select mode (offset 8), bank (offset 11) and program number
    (offset 12) is printed.  Every line carries the tag "[INFO] " in front
    and a newline behind: a Program dump with mode 1, bank 3, program 7
    prints "[INFO] PROGRAM BANK=3, PROGRAM NUMBER=7"; a Program-pair dump
    with program number 10 and mode 0 or 1 prints a line with
    "PROGRAM NUMBER=10 and 11", and it names the bank in mode 0 as well.
    Case by case, with the numbers in decimal: a Current-sound dump prints
    "[INFO] Current sound (edit buffer) dump"; a Program dump prints
    "[INFO] Current selected bank, PROGRAM NUMBER=n" in mode 0 and
    "[INFO] PROGRAM BANK=b, PROGRAM NUMBER=n" in mode 1; a Program-pair
    dump prints "[INFO] PROGRAM BANK=b, PROGRAM NUMBER=n and n+1" in mode 0
    and in mode 1; a Program or Program-pair dump in any other mode, and a
    frame of any other message type, prints no line. *)
Theorem diagnostic_line garbage rm F :
  source_frame F -> 12 < length F -> length F <= rm ->
  exists tr,
    transcode garbage rm F = Success tr
    /\ (forall m, m !!! 7 = F !!! 7 -> m !!! 8 = F !!! 8 ->
                  m !!! 11 = F !!! 11 -> m !!! 12 = F !!! 12 ->
                  printed tr = printed (describe m))
    /\ (F !!! 7 = MSGTYP_PRG -> F !!! 8 = 1%Z ->
        F !!! 11 = 3%Z -> F !!! 12 = 7%Z ->
        printed tr = ["[INFO] PROGRAM BANK=3, PROGRAM NUMBER=7" ++ nl]%string)
    /\ (F !!! 7 = MSGTYP_PAI -> F !!! 8 = 0%Z \/ F !!! 8 = 1%Z ->
        F !!! 12 = 10%Z ->
        printed tr = ["[INFO] PROGRAM BANK=" ++ dec (F !!! 11)
                        ++ ", PROGRAM NUMBER=10 and 11" ++ nl]%string)
    /\ Forall (fun line =>
                 exists text,
                   line = ("[INFO] " ++ text ++ String "010" EmptyString)%string)
              (printed tr)
    /\ (F !!! 7 = 0%Z ->
        printed tr
        = ["[INFO] Current sound (edit buffer) dump"
             ++ String "010" EmptyString]%string)
    /\ (F !!! 7 = 1%Z -> F !!! 8 = 0%Z ->
        printed tr
        = ["[INFO] Current selected bank, PROGRAM NUMBER="
             ++ NilZero.string_of_int (Z.to_int (F !!! 12))
             ++ String "010" EmptyString]%string)
    /\ (F !!! 7 = 1%Z -> F !!! 8 = 1%Z ->
        printed tr
        = ["[INFO] PROGRAM BANK="
             ++ NilZero.string_of_int (Z.to_int (F !!! 11))
             ++ ", PROGRAM NUMBER="
             ++ NilZero.string_of_int (Z.to_int (F !!! 12))
             ++ String "010" EmptyString]%string)
    /\ (F !!! 7 = 2%Z -> F !!! 8 = 0%Z \/ F !!! 8 = 1%Z ->
        printed tr
        = ["[INFO] PROGRAM BANK="
             ++ NilZero.string_of_int (Z.to_int (F !!! 11))
             ++ ", PROGRAM NUMBER="
             ++ NilZero.string_of_int (Z.to_int (F !!! 12))
             ++ " and "
             ++ NilZero.string_of_int (Z.to_int (F !!! 12%nat + 1))
             ++ String "010" EmptyString]%string)
    /\ (F !!! 7 = 1%Z \/ F !!! 7 = 2%Z ->
        F !!! 8 <> 0%Z -> F !!! 8 <> 1%Z -> printed tr = [])
    /\ (F !!! 7 <> 0%Z -> F !!! 7 <> 1%Z -> F !!! 7 <> 2%Z ->
        printed tr = []).
Proof.
  intros HF Hlong Hroom.
  destruct (init_ready garbage rm) as (Hp & Hlen & Hrm & Htr).
  unfold transcode.
  replace (run (init garbage rm) F) with (run (init garbage rm) (F ++ []))
    by (by rewrite app_nil_r).
  rewrite run_source_frame by (done || lia).
  eexists. split; [reflexivity |].
  cbn [trace]. rewrite Htr, describe_frame by done.
  autorewrite with printed. rewrite app_nil_r.
  cbn [printed flat_map app].
  assert (Hext : forall m, m !!! 7 = F !!! 7 -> m !!! 8 = F !!! 8 ->
                           m !!! 11 = F !!! 11 -> m !!! 12 = F !!! 12 ->
                           describe F = describe m)
    by (intros m H7 H8 H11 H12; by apply describe_ext).
  split; [intros m H7 H8 H11 H12; f_equal; by apply Hext |].
  split.
  { intros H7 H8 H11 H12. unfold describe. rewrite H7, H8, H11, H12. done. }
  split.
  { intros H7 H8 H12. unfold describe. rewrite H7, H12.
    destruct H8 as [-> | ->]; done. }
  split.
  { unfold describe, dec, nl.
    repeat case_decide; cbn [printed flat_map app];
      first [ apply Forall_nil_2 | apply Forall_singleton ].
    - by exists "Current sound (edit buffer) dump"%string.
    - exists ("Current selected bank, PROGRAM NUMBER="
              ++ NilZero.string_of_int (Z.to_int (F !!! 12)))%string.
      rewrite !string_app_assoc. reflexivity.
    - exists ("PROGRAM BANK=" ++ NilZero.string_of_int (Z.to_int (F !!! 11))
              ++ ", PROGRAM NUMBER="
              ++ NilZero.string_of_int (Z.to_int (F !!! 12)))%string.
      rewrite !string_app_assoc. reflexivity.
    - exists ("PROGRAM BANK=" ++ NilZero.string_of_int (Z.to_int (F !!! 11))
              ++ ", PROGRAM NUMBER="
              ++ NilZero.string_of_int (Z.to_int (F !!! 12))
              ++ " and "
              ++ NilZero.string_of_int (Z.to_int (F !!! 12%nat + 1)))%string.
      rewrite !string_app_assoc. reflexivity.
    - exists ("PROGRAM BANK=" ++ NilZero.string_of_int (Z.to_int (F !!! 11))
              ++ ", PROGRAM NUMBER="
              ++ NilZero.string_of_int (Z.to_int (F !!! 12))
              ++ " and "
              ++ NilZero.string_of_int (Z.to_int (F !!! 12%nat + 1)))%string.
      rewrite !string_app_assoc. reflexivity. }
  split; [intros H7; unfold describe; rewrite H7; done |].
  split; [intros H7 H8; unfold describe; rewrite H7, H8; done |].
  split; [intros H7 H8; unfold describe; rewrite H7, H8; done |].
  split.
  { intros H7 H8. unfold describe. rewrite H7.
    destruct H8 as [-> | ->]; done. }
  split.
  { intros H7 H80 H81. unfold describe.
    destruct H7 as [-> | ->]; repeat case_decide; done. }
  intros H70 H71 H72. unfold describe, MSGTYP_CUR, MSGTYP_PRG, MSGTYP_PAI.
  repeat case_decide; done.
Qed.

Lemma diagnostic_line_witness :
  source_frame pair_dump /\ 12 < length pair_dump /\ length pair_dump <= 270
  /\ exists tr,
       transcode zeros 270 pair_dump = Success tr
       /\ (forall m, m !!! 7 = pair_dump !!! 7 -> m !!! 8 = pair_dump !!! 8 ->
                     m !!! 11 = pair_dump !!! 11 -> m !!! 12 = pair_dump !!! 12 ->
                     printed tr = printed (describe m))
       /\ (pair_dump !!! 7 = MSGTYP_PRG -> pair_dump !!! 8 = 1%Z ->
           pair_dump !!! 11 = 3%Z -> pair_dump !!! 12 = 7%Z ->
           printed tr = ["[INFO] PROGRAM BANK=3, PROGRAM NUMBER=7" ++ nl]%string)
       /\ (pair_dump !!! 7 = MSGTYP_PAI ->
           pair_dump !!! 8 = 0%Z \/ pair_dump !!! 8 = 1%Z ->
           pair_dump !!! 12 = 10%Z ->
           printed tr = ["[INFO] PROGRAM BANK=" ++ dec (pair_dump !!! 11)
                           ++ ", PROGRAM NUMBER=10 and 11" ++ nl]%string)
       /\ Forall (fun line =>
                    exists text,
                      line
                      = ("[INFO] " ++ text ++ String "010" EmptyString)%string)
                 (printed tr)
       /\ (pair_dump !!! 7 = 0%Z ->
           printed tr
           = ["[INFO] Current sound (edit buffer) dump"
                ++ String "010" EmptyString]%string)
       /\ (pair_dump !!! 7 = 1%Z -> pair_dump !!! 8 = 0%Z ->
           printed tr
           = ["[INFO] Current selected bank, PROGRAM NUMBER="
                ++ NilZero.string_of_int (Z.to_int (pair_dump !!! 12))
                ++ String "010" EmptyString]%string)
       /\ (pair_dump !!! 7 = 1%Z -> pair_dump !!! 8 = 1%Z ->
           printed tr
           = ["[INFO] PROGRAM BANK="
                ++ NilZero.string_of_int (Z.to_int (pair_dump !!! 11))
                ++ ", PROGRAM NUMBER="
                ++ NilZero.string_of_int (Z.to_int (pair_dump !!! 12))
                ++ String "010" EmptyString]%string)
       /\ (pair_dump !!! 7 = 2%Z ->
           pair_dump !!! 8 = 0%Z \/ pair_dump !!! 8 = 1%Z ->
           printed tr
           = ["[INFO] PROGRAM BANK="
                ++ NilZero.string_of_int (Z.to_int (pair_dump !!! 11))
                ++ ", PROGRAM NUMBER="
                ++ NilZero.string_of_int (Z.to_int (pair_dump !!! 12))
                ++ " and "
                ++ NilZero.string_of_int (Z.to_int (pair_dump !!! 12%nat + 1))
                ++ String "010" EmptyString]%string)
       /\ (pair_dump !!! 7 = 1%Z \/ pair_dump !!! 7 = 2%Z ->
           pair_dump !!! 8 <> 0%Z -> pair_dump !!! 8 <> 1%Z -> printed tr = [])
       /\ (pair_dump !!! 7 <> 0%Z -> pair_dump !!! 7 <> 1%Z ->
           pair_dump !!! 7 <> 2%Z -> printed tr = []).
Proof.
  split; [exact pair_dump_source |]. split; [compute_done |].
  split; [compute_done |].
  apply (diagnostic_line zeros 270 pair_dump);
    [exact pair_dump_source | compute_done | compute_done].
Defined.

(** C6 as stated fails: the program dump with mode 1, bank 3, program 7
    does not print the bare text; the line on stdout starts with the tag
    and ends with a newline.  And a program pair dump with program number
    10 whose bank-select byte is neither 0 nor 1 prints no line at all. *)
Lemma diagnostic_line_has_tag :
  let odd_pair :=
    frame (source_header ++ [0; MSGTYP_PAI; 2; 0; 0; 3; 10]%Z
             ++ replicate 256 5%Z) in
  source_frame program_dump
  /\ program_dump !! 7 = Some MSGTYP_PRG /\ program_dump !! 8 = Some 1%Z
  /\ program_dump !! 11 = Some 3%Z /\ program_dump !! 12 = Some 7%Z
  /\ printed (trace_of (transcode zeros 142 program_dump))
     = ["[INFO] PROGRAM BANK=3, PROGRAM NUMBER=7" ++ nl]%string
  /\ printed (trace_of (transcode zeros 142 program_dump))
     <> ["PROGRAM BANK=3, PROGRAM NUMBER=7"]%string
  /\ odd_pair !! 7 = Some MSGTYP_PAI /\ odd_pair !! 12 = Some 10%Z
  /\ (exists tr, transcode zeros 270 odd_pair = Success tr /\ printed tr = []).
Proof.
  cbv zeta.
  split; [exact program_dump_source |].
  do 5 (split; [vm_compute; reflexivity |]).
  split; [vm_compute; discriminate |].
  do 2 (split; [vm_compute; reflexivity |]).
  eexists. split; vm_compute; reflexivity.
Qed.

(** C7.  For every non-empty input whose first byte is not the start marker
    0xF0, the run fails as "not a *.syx file" right after reading that
    byte, with nothing written to the output. *)
Theorem transcode_first_byte garbage rm b rest :
  b <> SOX ->
  transcode garbage rm (b :: rest) = Failure NotASysexFile [Fread b]
  /\ written (trace_of (transcode garbage rm (b :: rest))) = [].
Proof.
  intros Hb. unfold transcode. cbn [run]. unfold step. cbn [init bufAddr counter trace].
  case_decide as Hsz; [unfold SIZE_SYSEX_BUF in Hsz; simpl in Hsz; lia |].
  case_decide as Hc; [done |].
  exfalso. apply Hc. done.
Qed.

Lemma transcode_first_byte_witness :
  0x4D%Z <> SOX
  /\ transcode zeros 0 [0x4D; 0x54; 0x68; 0x64]%Z
     = Failure NotASysexFile [Fread 0x4D%Z]
  /\ written (trace_of (transcode zeros 0 [0x4D; 0x54; 0x68; 0x64]%Z)) = [].
Proof.
  split; [compute_done |].
  apply (transcode_first_byte zeros 0 0x4D%Z [0x54; 0x68; 0x64]%Z). compute_done.
Defined.

(** C8, as the source has it.  Whatever the buffer holds when the checks
    run, they are decided in this order: vendor ID (offsets 1, 2, 3, in
    turn), then device type (offset 4), then device/model ID (offset 5).  A
    later field is only looked at when every earlier one matched, and each
    check has a failure of its own, with a line on stderr that no other
    check prints.  The checks read the buffer, not the frame: an iteration
    of the loop changes what has been written only if it read the end
    marker and all of these checks passed on the buffer as it then was.
    Only for a delimited frame read with the cursor at the start of the
    buffer are these the checks on the frame: if one of them fails, the run
    ends with that failure and no byte has been written since the frame
    began. *)
Theorem header_checks_order (st : state) (b : Z) (body rest : list Z) :
  let m := <[bufAddr st := b]> (buf st) in
  (m !!! 1 <> NOVID1 -> validate m = Some (UnknownVendorId 1 (m !!! 1)))
  /\ (m !!! 1 = NOVID1 -> m !!! 2 <> NOVID2 ->
      validate m = Some (UnknownVendorId 2 (m !!! 2)))
  /\ (m !!! 1 = NOVID1 -> m !!! 2 = NOVID2 -> m !!! 3 <> NOVID3 ->
      validate m = Some (UnknownVendorId 3 (m !!! 3)))
  /\ (m !!! 1 = NOVID1 -> m !!! 2 = NOVID2 -> m !!! 3 = NOVID3 ->
      m !!! 4 <> DEVTYP ->
      validate m = Some (UnknownDeviceType (m !!! 4)))
  /\ (m !!! 1 = NOVID1 -> m !!! 2 = NOVID2 -> m !!! 3 = NOVID3 ->
      m !!! 4 = DEVTYP -> m !!! 5 = KSTNID ->
      validate m = Some AlreadyTargetFormat)
  /\ (m !!! 1 = NOVID1 -> m !!! 2 = NOVID2 -> m !!! 3 = NOVID3 ->
      m !!! 4 = DEVTYP -> m !!! 5 <> KSTNID -> m !!! 5 <> ASTNID ->
      validate m = Some (UnknownDeviceId (m !!! 5)))
  /\ (m !!! 1 = NOVID1 -> m !!! 2 = NOVID2 -> m !!! 3 = NOVID3 ->
      m !!! 4 = DEVTYP -> m !!! 5 = ASTNID ->
      validate m = None)
  /\ (forall name m' e e',
        validate m = Some e -> validate m' = Some e' ->
        stderr_line name e = stderr_line name e' -> same_check e e')
  /\ (written (outcome_trace (step st b)) <> written (trace st) ->
      b = EOX /\ validate m = None)
  /\ (bufAddr st = 0 -> length (buf st) = SIZE_SYSEX_BUF ->
      Forall data_byte body -> length (frame body) <= SIZE_SYSEX_BUF ->
      forall e, validate (frame body) = Some e ->
      run st (frame body ++ rest)
      = Failure e (trace st ++ (Fread <$> frame body))
      /\ written (trace_of (run st (frame body ++ rest))) = written (trace st)).
Proof.
  cbv zeta. set (m := <[bufAddr st := b]> (buf st)).
  repeat match goal with |- _ /\ _ => split end.
  1-7: unfold validate; intros; repeat case_decide;
    first [done | unfold_consts; lia].
  - intros name m' e e'. apply validate_stderr_distinct.
  - intros Hw. destruct (step_written st b) as [[Hb Hv] | Hsame]; done.
  - intros Hp Hlen Hdata Hfit e He.
    rewrite run_frame by done. cbv zeta.
    rewrite validate_frame_app, He. split; [done |].
    cbn [trace_of]. rewrite written_app, written_reads. by rewrite app_nil_r.
Qed.

Lemma header_checks_order_witness :
  let st := init zeros 0 in
  let body := [NOVID1; NOVID2; NOVID3; 0x02; KSTNID; 0x00; 0x00]%Z in
  bufAddr st = 0 /\ length (buf st) = SIZE_SYSEX_BUF
  /\ Forall data_byte body /\ length (frame body) <= SIZE_SYSEX_BUF
  /\ validate (frame body) = Some (UnknownDeviceType 0x02%Z)
  /\ run st (frame body ++ program_dump)
     = Failure (UnknownDeviceType 0x02%Z) (trace st ++ (Fread <$> frame body))
  /\ written (trace_of (run st (frame body ++ program_dump))) = written (trace st).
Proof.
  cbv zeta.
  split; [compute_done |]. split; [compute_done |]. split; [compute_done |].
  split; [compute_done |]. split; [compute_done |].
  apply (header_checks_order (init zeros 0) 0%Z
           [NOVID1; NOVID2; NOVID3; 0x02; KSTNID; 0x00; 0x00]%Z program_dump);
    compute_done.
Defined.

(** C8 as stated fails: bytes of a frame are written although a check
    fails on that frame.  After a source frame, six bytes without a start
    marker are stored from the start of the buffer, so the frame that
    follows them begins at offset 6.  Its vendor ID ends in 0x2A rather
    than 0x29, yet at its end marker the checks read offsets 1 to 5, the
    stray bytes, and pass; offset 5 is rewritten and as many bytes as the
    frame is long are written from the start of the buffer: the six stray
    bytes, then the bytes F0 00 20 of the frame. *)
Lemma header_checks_read_stray_bytes :
  let strays := [0x00; NOVID1; NOVID2; NOVID3; DEVTYP; ASTNID]%Z in
  let bad := frame [NOVID1; NOVID2; 0x2A; DEVTYP; ASTNID; 0x00; 0x00]%Z in
  validate bad = Some (UnknownVendorId 3 0x2A%Z)
  /\ exists tr,
       transcode zeros 16 (frame source_header ++ strays ++ bad) = Success tr
       /\ written tr
          = [0xF0; 0x00; 0x20; 0x29; 0x01; 0x41; 0xF7;
             0x00; 0x00; 0x20; 0x29; 0x01; 0x41; 0xF0; 0x00; 0x20]%Z
       /\ drop 13 (written tr) = take 3 bad
       /\ reads tr = frame source_header ++ strays ++ bad.
Proof.
  cbv zeta. split; [vm_compute; reflexivity |].
  eexists. split; [vm_compute; reflexivity |].
  split; [vm_compute; reflexivity |].
  split; vm_compute; reflexivity.
Qed.

(** C9.  On the empty input the loop body never runs: the result is
    success, nothing was read, printed or written. *)
Theorem transcode_empty garbage rm :
  transcode garbage rm [] = Success []
  /\ written (trace_of (transcode garbage rm [])) = [].
Proof. split; reflexivity. Qed.

(** C10, as the source has it.  After a source frame, stray data bytes (at
    least one) followed by a delimited frame, all of it fitting the buffer,
    make the run fail with the vendor-ID failure when the end marker of
    that frame is read, unless the stray bytes at offsets 1 to 3 spell the
    vendor ID themselves, which takes four stray bytes or more.  The stray
    bytes sit at the start of the buffer and the start marker of the frame
    behind them, so with one to three stray bytes a vendor check meets a
    wrong byte at the latest at the marker.  The byte reported is a stray
    byte or the marker; the first frame has been written by then, and
    nothing else. *)
Theorem stray_bytes_shift_header garbage rm F1 strays body2 rest :
  source_frame F1 -> length F1 <= rm ->
  strays <> [] -> Forall data_byte strays ->
  take 3 (drop 1 strays) <> [NOVID1; NOVID2; NOVID3] ->
  Forall data_byte body2 ->
  length strays + length (frame body2) <= SIZE_SYSEX_BUF ->
  exists k x tr,
    transcode garbage rm (F1 ++ strays ++ frame body2 ++ rest)
    = Failure (UnknownVendorId k x) tr
    /\ 1 <= k <= 3 /\ k <= length strays
    /\ (strays ++ [SOX]) !! k = Some x
    /\ written tr = patch F1.
Proof.
  intros HF1 Hroom Hne Hstrays Hvendor Hbody2 Hfit.
  pose proof (source_frame_long F1 HF1) as Hlong.
  assert (Hfit1 : length F1 <= SIZE_SYSEX_BUF)
    by (destruct HF1 as (? & _ & _ & ? & _); done).
  destruct (init_ready garbage rm) as (Hp & Hlen & Hrm & Htr).
  rewrite length_frame in Hfit.
  unfold transcode. rewrite run_source_frame by (done || lia).
  replace (strays ++ frame body2 ++ rest)
    with ((strays ++ SOX :: body2) ++ EOX :: rest)
    by (unfold frame; simpl; by rewrite <- !app_assoc).
  set (old := patch F1 ++ drop (length F1) (buf (init garbage rm))).
  assert (Hold : length old = SIZE_SYSEX_BUF).
  { unfold old. rewrite length_app, length_patch, length_drop. lia. }
  rewrite (run_region [] (strays ++ SOX :: body2) old); cbn [buf bufAddr counter trace].
  - cbv zeta. rewrite app_nil_l, <- (app_assoc strays). cbn [app].
    destruct (validate_strays strays
                (body2 ++ EOX :: drop (S (length (strays ++ SOX :: body2))) old)
                Hne Hvendor)
      as (k & x & -> & Hk & Hk' & Hx).
    exists k, x. eexists. split; [reflexivity |].
    split; [done |]. split; [done |]. split; [done |].
    rewrite Htr. autorewrite with written.
    simpl. by rewrite app_nil_r.
  - done.
  - done.
  - lia.
  - apply Forall_app. split; [by apply data_byte_not_EOX |].
    constructor; [done | by apply data_byte_not_EOX].
  - rewrite length_app. simpl. lia.
  - simpl. lia.
Qed.

Lemma stray_bytes_shift_header_witness :
  let strays := [0x00; 0x00]%Z in
  source_frame program_dump /\ length program_dump <= 142
  /\ strays <> [] /\ Forall data_byte strays
  /\ take 3 (drop 1 strays) <> [NOVID1; NOVID2; NOVID3]
  /\ Forall data_byte program_body
  /\ length strays + length (frame program_body) <= SIZE_SYSEX_BUF
  /\ exists k x tr,
       transcode zeros 142 (program_dump ++ strays ++ frame program_body ++ pair_dump)
       = Failure (UnknownVendorId k x) tr
       /\ 1 <= k <= 3 /\ k <= length strays
       /\ (strays ++ [SOX]) !! k = Some x
       /\ written tr = patch program_dump.
Proof.
  cbv zeta.
  split; [exact program_dump_source |]. split; [compute_done |].
  split; [compute_done |]. split; [compute_done |].
  split; [compute_done |]. split; [compute_done |]. split; [compute_done |].
  apply (stray_bytes_shift_header zeros 142 program_dump [0x00; 0x00]%Z
           program_body pair_dump);
    [exact program_dump_source | compute_done | compute_done | compute_done
    | compute_done | compute_done | compute_done].
Defined.

(** C10 as stated fails for longer runs of stray bytes.  Six stray data
    bytes that spell an A-Station header, between two program dumps: the
    checks at the second end marker read the stray bytes and pass, the run
    succeeds, and what is written after the first frame starts with the
    stray bytes.  With four stray bytes the failure is the device-type one. *)
Lemma stray_bytes_accepted :
  let strays := [0x00; NOVID1; NOVID2; NOVID3; DEVTYP; ASTNID]%Z in
  Forall data_byte strays
  /\ (exists tr,
        transcode zeros 284 (program_dump ++ strays ++ program_dump) = Success tr
        /\ take 6 (drop 142 (written tr))
           = [0x00; NOVID1; NOVID2; NOVID3; DEVTYP; KSTNID]%Z)
  /\ ~ (exists k x tr,
          transcode zeros 284 (program_dump ++ strays ++ program_dump)
          = Failure (UnknownVendorId k x) tr)
  /\ (exists tr,
        transcode zeros 284
          (program_dump ++ [0x00; NOVID1; NOVID2; NOVID3]%Z ++ program_dump)
        = Failure (UnknownDeviceType SOX) tr).
Proof.
  cbv zeta.
  assert (H : exists tr,
             transcode zeros 284
               (program_dump ++ [0x00; NOVID1; NOVID2; NOVID3; DEVTYP; ASTNID]%Z
                  ++ program_dump) = Success tr
             /\ take 6 (drop 142 (written tr))
                = [0x00; NOVID1; NOVID2; NOVID3; DEVTYP; KSTNID]%Z).
  { eexists. split; vm_compute; reflexivity. }
  split; [compute_done |]. split; [exact H |]. split.
  - intros (k & x & tr & Hk). destruct H as (tr' & H & _).
    rewrite H in Hk. discriminate.
  - eexists. vm_compute. reflexivity.
Qed.

(** * Further properties of the loop *)

(** ** One pass over the input *)

Lemma reads_app tr1 tr2 : reads (tr1 ++ tr2) = reads tr1 ++ reads tr2.
Proof. apply flat_map_app. Qed.

Lemma reads_reads bs : reads (Fread <$> bs) = bs.
Proof. induction bs as [|b bs IH]; [done | simpl; f_equal; exact IH]. Qed.

Lemma reads_writes bs : reads (Fwrite <$> bs) = [].
Proof. induction bs as [|b bs IH]; [done | exact IH]. Qed.

Lemma reads_describe m : reads (describe m) = [].
Proof. destruct (describe_cases m) as [-> | [line ->]]; done. Qed.

(** An iteration reads the byte it was called for, once, unless [fread] was
    asked to store it outside the buffer. *)
Lemma step_reads st b :
  reads (outcome_trace (step st b)) = reads (trace st) ++ [b]
  \/ (SIZE_SYSEX_BUF <= bufAddr st /\ step st b = Halt (Undefined (trace st))).
Proof.
  unfold step. case_decide; [by right | left].
  case_decide; [simpl; by rewrite reads_app |].
  case_decide; [| simpl; by rewrite reads_app].
  destruct (validate _); [simpl; by rewrite reads_app |].
  match goal with
  | |- context [write_loop ?m ?i ?n ?r ?t] =>
      destruct (write_loop_trace m n i r t) as [ws Hws];
      destruct (write_loop m i n r t)
  end; simpl; rewrite Hws, !reads_app, reads_writes, reads_describe;
    simpl; by rewrite !app_nil_r.
Qed.

(** The loop is only ever left by a failure or an undefined access;
    success is what is returned after the loop. *)
Lemma write_loop_stop m n : forall i rm tr tr',
  write_loop m i n rm tr <> WStop (Success tr').
Proof.
  induction n as [|n IH]; intros i rm tr tr'; simpl; [done |].
  case_decide; [done |]. destruct rm; [done | apply IH].
Qed.

Lemma step_not_success st b tr : step st b <> Halt (Success tr).
Proof.
  unfold step. repeat case_decide; try done.
  destruct (validate _); [done |].
  destruct (write_loop _ _ _ _ _) eqn:Hw; [done |].
  intros [= ->]. by apply write_loop_stop in Hw.
Qed.

Lemma run_reads input : forall st,
  exists k,
    reads (trace_of (run st input)) = reads (trace st) ++ take k input
    /\ (forall tr, run st input = Success tr -> k = length input).
Proof.
  induction input as [|b input IH]; intros st; simpl.
  - exists 0. by rewrite app_nil_r.
  - destruct (step_reads st b) as [Hr | [_ Hu]].
    + destruct (step st b) as [st' | r] eqn:Hstep; simpl in Hr.
      * destruct (IH st') as (k & Hk & Hall). exists (S k). split.
        -- rewrite Hk, Hr, <- app_assoc. done.
        -- intros tr Htr. by rewrite (Hall tr Htr).
      * exists 1. rewrite Hr. cbn [take]. rewrite take_0. split; [done |].
        intros tr ->. by destruct (step_not_success st b tr).
    + rewrite Hu. exists 0. simpl. rewrite app_nil_r. split; [done |].
      intros tr Htr. discriminate.
Qed.

(** X1.  The loop is a single forward pass: the bytes [fread] delivered
    are, in order, an initial part of the input, each read once; when the
    run succeeds they are the whole input. *)
Theorem reads_follow_input garbage rm input :
  reads (trace_of (transcode garbage rm input)) `prefix_of` input
  /\ (forall tr, transcode garbage rm input = Success tr -> reads tr = input).
Proof.
  unfold transcode.
  destruct (run_reads input (init garbage rm)) as (k & Hk & Hall).
  simpl in Hk. split.
  - rewrite Hk. exists (drop k input). by rewrite take_drop.
  - intros tr Htr. rewrite Htr in Hk. simpl in Hk.
    rewrite Hk, (Hall tr Htr). by rewrite firstn_all.
Qed.

(** ** The bounds of the buffer *)

(** The write loop stays inside the buffer when its bound does. *)
Lemma write_loop_defined m n : forall i rm tr tr',
  i + n <= SIZE_SYSEX_BUF -> write_loop m i n rm tr <> WStop (Undefined tr').
Proof.
  induction n as [|n IH]; intros i rm tr tr' Hsz; simpl; [done |].
  case_decide; [lia |].
  destruct rm as [|rm]; [done |].
  apply IH. lia.
Qed.

Lemma run_defined input : forall st tr,
  bufAddr st + length input <= SIZE_SYSEX_BUF ->
  (counter st + 1 + Z.of_nat (length input) <= Z.of_nat SIZE_SYSEX_BUF)%Z ->
  run st input <> Undefined tr.
Proof.
  induction input as [|b input IH]; intros st tr Hp Hc; simpl in *; [done |].
  unfold step. case_decide; [lia |].
  destruct (decide (_ /\ _)); [done |].
  unfold count.
  destruct (decide (b = EOX)) as [-> | Hb].
  - destruct (validate _); [done |].
    destruct (decide (EOX = SOX)) as [E | _]; [unfold_consts; discriminate E |].
    destruct (write_loop _ _ _ _ _) as [rm' tr' | r] eqn:Hw.
    + apply IH; simpl; lia.
    + intros ->. revert Hw. apply write_loop_defined. lia.
  - apply IH; simpl; [lia |]. case_decide; lia.
Qed.

(** X2.  An input of at most [SIZE_SYSEX_BUF] bytes never makes the loop
    touch memory outside [sysExclMsg], whatever it contains: neither the
    cursor nor the bound of the write loop can get past the bytes read. *)
Theorem short_input_stays_in_buffer garbage rm input tr :
  length input <= SIZE_SYSEX_BUF ->
  transcode garbage rm input <> Undefined tr.
Proof.
  intros Hlen. apply run_defined; simpl; lia.
Qed.

Lemma short_input_stays_in_buffer_witness :
  length pair_dump <= SIZE_SYSEX_BUF
  /\ (exists tr, transcode zeros 270 pair_dump = Success tr)
  /\ transcode zeros 270 pair_dump <> Undefined [].
Proof.
  split; [compute_done |]. split; [eexists; vm_compute; reflexivity |].
  apply (short_input_stays_in_buffer zeros 270 pair_dump []). compute_done.
Defined.

(** X3.  A delimited frame longer than [SIZE_SYSEX_BUF] (a dump with a
    third program block, say) is never checked: once the buffer is full the
    next [fread] is given the address just past its end.  Nothing has been
    written or printed by then. *)
Theorem long_frame_overruns_buffer garbage rm body rest :
  Forall data_byte body -> SIZE_SYSEX_BUF < length (frame body) ->
  transcode garbage rm (frame body ++ rest)
  = Undefined (Fread <$> take SIZE_SYSEX_BUF (frame body)).
Proof.
  intros Hdata Hlong. rewrite length_frame in Hlong.
  destruct (init_ready garbage rm) as (Hp & Hlen & _ & Htr).
  unfold transcode.
  destruct (init garbage rm) as [m0 p c rm0 tr0];
    cbn [bufAddr buf room trace counter] in *; subst p tr0.
  destruct m0 as [|x old]; [done |]. cbn [length] in Hlen.
  set (n := SIZE_SYSEX_BUF - 1).
  assert (Hn : n <= length body) by (unfold n; lia).
  replace (frame body ++ rest)
    with (SOX :: take n body ++ (drop n body ++ [EOX] ++ rest))
    by (unfold frame; simpl;
        by rewrite <- app_assoc, (app_assoc (take n body)), take_drop).
  cbn [run]. rewrite step_store; cbn [bufAddr buf room trace counter];
    [| lia | done | by right].
  change (<[0:=SOX]> (x :: old)) with ([SOX] ++ old).
  rewrite (run_load (take n body) [SOX] old).
  - destruct (drop n body ++ [EOX] ++ rest) as [|b rest'] eqn:Hrest.
    { apply (f_equal length) in Hrest. rewrite !length_app, length_drop in Hrest.
      simpl in Hrest. lia. }
    cbn [run]. unfold step. cbn [bufAddr trace].
    case_decide as Hfull.
    + f_equal. unfold frame.
      replace SIZE_SYSEX_BUF with (S n) by (unfold n, SIZE_SYSEX_BUF; simpl; lia).
      cbn [take]. rewrite take_app_le by lia.
      rewrite fmap_cons. done.
    + exfalso. apply Hfull. rewrite length_app, length_take. cbn [length]. lia.
  - apply data_byte_not_EOX. by apply Forall_take.
  - done.
  - rewrite length_take. lia.
  - cbn [length]. lia.
Qed.

Lemma long_frame_overruns_buffer_witness :
  let body := source_header ++ [0; MSGTYP_PAI; 0; 0; 0; 3; 10]%Z
                ++ replicate 384 5%Z in
  Forall data_byte body /\ SIZE_SYSEX_BUF < length (frame body)
  /\ transcode zeros 1000 (frame body ++ program_dump)
     = Undefined (Fread <$> take SIZE_SYSEX_BUF (frame body)).
Proof.
  cbv zeta. split; [compute_done |]. split; [compute_done |].
  apply (long_frame_overruns_buffer zeros 1000
           (source_header ++ [0; MSGTYP_PAI; 0; 0; 0; 3; 10]%Z
              ++ replicate 384 5%Z) program_dump); compute_done.
Defined.

(** ** A failing [fwrite] *)

(** With fewer successful calls of [fwrite] left than iterations to go, the
    loop makes those calls and then fails. *)
Lemma write_loop_fails m n : forall i rm tr,
  i + n <= SIZE_SYSEX_BUF -> i + n <= length m -> rm < n ->
  write_loop m i n rm tr
  = WStop (Failure WriteError (tr ++ (Fwrite <$> take rm (drop i m)))).
Proof.
  induction n as [|n IH]; intros i rm tr Hsz Hlen Hrm; simpl; [lia |].
  case_decide; [lia |].
  destruct rm as [|rm]; [by rewrite take_0, app_nil_r |].
  rewrite IH by lia.
  assert (Hi : m !! i = Some (m !!! i))
    by (apply list_lookup_lookup_total_lt; lia).
  rewrite (drop_S _ _ _ Hi). simpl. by rewrite <- app_assoc.
Qed.

Lemma run_source_frame_short st F rest :
  source_frame F -> bufAddr st = 0 -> length (buf st) = SIZE_SYSEX_BUF ->
  room st < length F ->
  run st (F ++ rest)
  = Failure WriteError
      (trace st ++ (Fread <$> F)
         ++ describe (patch F ++ drop (length F) (buf st))
         ++ (Fwrite <$> take (room st) (patch F))).
Proof.
  intros HF Hp Hlen Hroom.
  pose proof (source_frame_long F HF) as Hlong.
  destruct HF as (body & -> & Hdata & Hfit & Hval).
  rewrite run_frame by done. cbv zeta.
  rewrite <- (app_nil_r (frame body)) in Hval.
  destruct (validate_frame_inv _ _ Hval) as [payload ->].
  rewrite validate_source.
  set (F := frame (source_header ++ payload)) in *.
  rewrite patch_app by lia.
  assert (Hm : length (patch F ++ drop (length F) (buf st)) = SIZE_SYSEX_BUF).
  { rewrite length_app, length_patch, length_drop. lia. }
  rewrite write_loop_fails by lia.
  rewrite drop_0, take_app_le by (rewrite length_patch; lia).
  by rewrite <- !app_assoc.
Qed.

Lemma run_frames_short Fs : forall st rest,
  Forall source_frame Fs -> bufAddr st = 0 ->
  length (buf st) = SIZE_SYSEX_BUF -> room st < length (concat Fs) ->
  exists tr,
    run st (concat Fs ++ rest) = Failure WriteError tr
    /\ written tr = written (trace st) ++ take (room st) (concat (patch <$> Fs)).
Proof.
  induction Fs as [|F Fs IH]; intros st rest HFs Hp Hlen Hroom;
    [simpl in Hroom; lia |].
  inversion HFs as [|? ? HF HFs']; subst.
  simpl in Hroom. rewrite length_app in Hroom.
  pose proof (source_frame_long F HF) as Hlong.
  assert (Hfit : length F <= SIZE_SYSEX_BUF)
    by (destruct HF as (? & _ & _ & ? & _); done).
  simpl concat. rewrite <- app_assoc.
  destruct (decide (length F <= room st)) as [Hfits | Hshort].
  - rewrite run_source_frame by done.
    match goal with |- context [run ?s (concat Fs ++ rest)] => set (st1 := s) end.
    destruct (IH st1 rest) as (tr & Hrun & Hw); [done | done | | | ].
    + unfold st1. simpl. rewrite length_app, length_patch, length_drop. lia.
    + unfold st1. simpl. lia.
    + exists tr. split; [done |]. rewrite Hw. unfold st1. simpl.
      autorewrite with written. simpl. rewrite <- !app_assoc. f_equal.
      rewrite take_app_ge by (rewrite length_patch; lia).
      by rewrite length_patch.
  - rewrite run_source_frame_short by (done || lia).
    eexists. split; [reflexivity |].
    autorewrite with written. simpl.
    rewrite take_app_le by (rewrite length_patch; lia). done.
Qed.

(** X4.  When only the first [rm] calls of [fwrite] return 1 and the
    converted stream of the source frames is longer than that, the run ends
    on the "File write error" path at the next call, whatever follows the
    frames in the input.  The bytes handed to the calls that returned 1 are
    exactly the first [rm] bytes of the converted stream, each frame with
    offset 5 set to 0x41: whole converted frames, then the beginning of the
    frame during which [fwrite] failed. *)
Theorem write_error_keeps_prefix garbage rm Fs rest :
  Forall source_frame Fs -> rm < length (concat Fs) ->
  exists tr,
    transcode garbage rm (concat Fs ++ rest) = Failure WriteError tr
    /\ written tr = take rm (concat ((fun F => <[5 := KSTNID]> F) <$> Fs))
    /\ length (written tr) = rm
    /\ stderr_line EmptyString WriteError
       = ("[ERR] File write error" ++ String "010" EmptyString)%string.
Proof.
  intros HFs Hrm.
  destruct (init_ready garbage rm) as (Hp & Hlen & Hroom & Htr).
  destruct (run_frames_short Fs (init garbage rm) rest HFs Hp Hlen)
    as (tr & Hrun & Hw); [lia |].
  rewrite Htr, Hroom in Hw. cbn [written flat_map app] in Hw.
  exists tr. split; [done |]. split; [exact Hw |]. split; [| done].
  rewrite Hw, length_take.
  assert (Hl : forall Gs : list (list Z),
             length (concat (patch <$> Gs)) = length (concat Gs)).
  { induction Gs as [| G Gs IH]; [done |].
    cbn [fmap list_fmap concat]. rewrite !length_app, length_patch.
    f_equal. exact IH. }
  change (fun F => <[5 := KSTNID]> F) with patch. rewrite Hl. lia.
Qed.

Lemma write_error_keeps_prefix_witness :
  let Fs := [program_dump; pair_dump] in
  Forall source_frame Fs /\ 200 < length (concat Fs)
  /\ exists tr,
       transcode zeros 200 (concat Fs ++ program_dump) = Failure WriteError tr
       /\ written tr = take 200 (concat ((fun F => <[5 := KSTNID]> F) <$> Fs))
       /\ length (written tr) = 200
       /\ stderr_line EmptyString WriteError
          = ("[ERR] File write error" ++ String "010" EmptyString)%string.
Proof.
  assert (HFs : Forall source_frame [program_dump; pair_dump]).
  { repeat constructor; [exact program_dump_source | exact pair_dump_source]. }
  split; [exact HFs |]. split; [compute_done |].
  apply (write_error_keeps_prefix zeros 200 [program_dump; pair_dump] program_dump);
    [exact HFs | compute_done].
Defined.

(** ** Failures after the first frame *)

(** X5.  A failed header check ends the run where it stands: the frames
    converted before the offending one stay in the output file, and
    nothing of the offending frame or of what follows it is written. *)
Theorem failure_keeps_earlier_frames garbage rm Fs body rest e :
  Forall source_frame Fs -> length (concat Fs) <= rm ->
  Forall data_byte body -> length (frame body) <= SIZE_SYSEX_BUF ->
  validate (frame body) = Some e ->
  exists tr,
    transcode garbage rm (concat Fs ++ frame body ++ rest) = Failure e tr
    /\ written tr = concat (patch <$> Fs).
Proof.
  intros HFs Hroom Hdata Hfit He.
  destruct (init_ready garbage rm) as (Hp & Hlen & Hrm & Htr).
  destruct (run_frames Fs (init garbage rm) (frame body ++ rest) HFs Hp Hlen)
    as (st' & Hrun & Hp' & Hlen' & Hw & Hio); [lia |].
  unfold transcode. rewrite Hrun, run_frame by done. cbv zeta.
  rewrite validate_frame_app, He.
  eexists. split; [reflexivity |].
  by rewrite written_app, written_reads, Hw, Htr, app_nil_r.
Qed.

Lemma failure_keeps_earlier_frames_witness :
  let Fs := [program_dump; pair_dump] in
  let body := [NOVID1; NOVID2; NOVID3; DEVTYP; KSTNID; 0x00; MSGTYP_CUR]%Z in
  Forall source_frame Fs /\ length (concat Fs) <= 412
  /\ Forall data_byte body /\ length (frame body) <= SIZE_SYSEX_BUF
  /\ validate (frame body) = Some AlreadyTargetFormat
  /\ exists tr,
       transcode zeros 412 (concat Fs ++ frame body ++ program_dump)
       = Failure AlreadyTargetFormat tr
       /\ written tr = concat (patch <$> Fs).
Proof.
  assert (HFs : Forall source_frame [program_dump; pair_dump]).
  { repeat constructor; [exact program_dump_source | exact pair_dump_source]. }
  cbv zeta. split; [exact HFs |]. split; [compute_done |].
  split; [compute_done |]. split; [compute_done |]. split; [compute_done |].
  apply (failure_keeps_earlier_frames zeros 412 [program_dump; pair_dump]
           [NOVID1; NOVID2; NOVID3; DEVTYP; KSTNID; 0x00; MSGTYP_CUR]%Z
           program_dump AlreadyTargetFormat);
    [exact HFs | compute_done | compute_done | compute_done | compute_done].
Defined.

(** X6.  An end marker that directly follows a converted frame is taken
    for the end of another frame: the checks find the header the previous
    frame left in the buffer, already patched, and the run fails with "no
    conversion required".  The frame before it stays written. *)
Theorem repeated_end_marker garbage rm F rest :
  source_frame F -> length F <= rm ->
  exists tr,
    transcode garbage rm (F ++ EOX :: rest) = Failure AlreadyTargetFormat tr
    /\ written tr = patch F
    /\ reads tr = F ++ [EOX].
Proof.
  intros HF Hroom.
  pose proof (source_frame_long F HF) as Hlong.
  destruct (init_ready garbage rm) as (Hp & Hlen & Hrm & Htr).
  unfold transcode. rewrite run_source_frame by (done || lia).
  destruct (source_frame_inv F HF) as (payload & -> & Hdata & Hfit).
  set (F := frame (source_header ++ payload)) in *.
  set (old := patch F ++ drop (length F) (buf (init garbage rm))).
  assert (Hold : length old = SIZE_SYSEX_BUF).
  { unfold old. rewrite length_app, length_patch, length_drop. lia. }
  change (EOX :: rest) with ([] ++ EOX :: rest).
  rewrite (run_region [] [] old); cbn [buf bufAddr counter trace];
    [| done | done | lia | done
     | rewrite Hold; cbn [length];
       unfold SIZE_SYSEX_BUF, SIZE_PROGRAM_DATA, OFFSET_PROGRAM; lia
     | cbn [length]; lia].
  cbv zeta. cbn [app length].
  replace (validate (EOX :: drop 1 old)) with (Some AlreadyTargetFormat)
    by (unfold old, F; reflexivity).
  eexists. split; [reflexivity |].
  rewrite Htr. split.
  - autorewrite with written. simpl. by rewrite app_nil_r.
  - rewrite !reads_app, !reads_reads, reads_describe, reads_writes.
    simpl. by rewrite !app_nil_r.
Qed.

Lemma repeated_end_marker_witness :
  source_frame program_dump /\ length program_dump <= 142
  /\ exists tr,
       transcode zeros 142 (program_dump ++ EOX :: pair_dump)
       = Failure AlreadyTargetFormat tr
       /\ written tr = patch program_dump
       /\ reads tr = program_dump ++ [EOX].
Proof.
  split; [exact program_dump_source |]. split; [compute_done |].
  apply (repeated_end_marker zeros 142 program_dump pair_dump);
    [exact program_dump_source | compute_done].
Defined.

(** ** A start marker inside a frame *)

Lemma advance_restart x b : forall c,
  Forall data_byte b -> advance c (x ++ SOX :: b) = Z.of_nat (length b).
Proof.
  intros c Hb. unfold advance. rewrite fold_left_app. simpl.
  change (count _ SOX) with 0%Z.
  fold (advance 0 b). rewrite advance_data by done. lia.
Qed.

(** X7.  A start marker restarts [counter] but not the cursor.  When a
    second start marker arrives before the end marker, the header checks
    still look at the bytes after the first one, and the write loop, bounded
    by [counter], writes only as many bytes from the start of the buffer as
    there are from the second start marker to the end marker. *)
Theorem second_start_marker garbage rm a b :
  Forall data_byte a -> Forall data_byte b ->
  length a + length b + 8 <= SIZE_SYSEX_BUF -> length b + 2 <= rm ->
  exists tr,
    transcode garbage rm (SOX :: source_header ++ a ++ SOX :: b ++ [EOX])
    = Success tr
    /\ written tr
       = take (length b + 2)
              (patch (SOX :: source_header ++ a ++ SOX :: b ++ [EOX])).
Proof.
  intros Ha Hb Hfit Hroom.
  destruct (init_ready garbage rm) as (Hp & Hlen & Hrm & Htr).
  unfold transcode.
  destruct (init garbage rm) as [m0 p c rm0 tr0];
    cbn [bufAddr buf room trace counter] in *; subst p tr0 rm0.
  destruct m0 as [|x old]; [done |]. cbn [length] in Hlen.
  cbn [run]. rewrite step_store; cbn [bufAddr buf room trace counter];
    [| lia | done | by right].
  change (<[0:=SOX]> (x :: old)) with ([SOX] ++ old).
  set (bs := source_header ++ a ++ SOX :: b).
  assert (Hbs : length bs = length a + length b + 6).
  { unfold bs. rewrite !length_app. simpl. lia. }
  replace (source_header ++ a ++ SOX :: b ++ [EOX]) with (bs ++ EOX :: [])
    by (unfold bs; by rewrite <- !app_assoc).
  rewrite (run_region [SOX] bs old); cbn [buf bufAddr counter trace room];
    [| done | done | done | | lia | cbn [length]; lia].
  2:{ unfold bs. apply Forall_app. split; [by repeat constructor |].
      apply Forall_app. split; [by apply data_byte_not_EOX |].
      constructor; [done | by apply data_byte_not_EOX]. }
  cbv zeta.
  replace (advance (count c SOX) bs) with (Z.of_nat (length b)).
  2:{ unfold bs. rewrite (app_assoc source_header). by rewrite advance_restart. }
  set (m := ([SOX] ++ bs) ++ EOX :: drop (S (length bs)) old).
  assert (Hv : validate m = None) by (apply validate_None_iff; done).
  rewrite Hv.
  assert (Hm : length m = SIZE_SYSEX_BUF).
  { unfold m. rewrite !length_app. cbn [length]. rewrite length_drop. lia. }
  replace (Z.to_nat (Z.of_nat (length b) + 1 + 1)) with (length b + 2) by lia.
  rewrite write_loop_ok; [| lia | rewrite length_patch; lia | lia].
  cbn [run trace]. eexists. split; [reflexivity |].
  autorewrite with written. simpl written. rewrite app_nil_l, drop_0.
  unfold m.
  replace (([SOX] ++ bs) ++ EOX :: drop (S (length bs)) old)
    with ((SOX :: bs ++ [EOX]) ++ drop (S (length bs)) old)
    by (simpl; by rewrite <- !app_assoc).
  rewrite patch_app by (cbn [length]; rewrite length_app; cbn [length]; lia).
  rewrite take_app_le
    by (rewrite length_patch; cbn [length]; rewrite length_app; cbn [length]; lia).
  done.
Qed.

Lemma second_start_marker_witness :
  let a := [0; MSGTYP_PRG; 1]%Z in
  let b := [NOVID1; NOVID2; NOVID3; DEVTYP; ASTNID; 0; MSGTYP_CUR]%Z in
  Forall data_byte a /\ Forall data_byte b
  /\ length a + length b + 8 <= SIZE_SYSEX_BUF /\ length b + 2 <= 9
  /\ exists tr,
       transcode zeros 9 (SOX :: source_header ++ a ++ SOX :: b ++ [EOX])
       = Success tr
       /\ written tr
          = take (length b + 2)
                 (patch (SOX :: source_header ++ a ++ SOX :: b ++ [EOX])).
Proof.
  cbv zeta. split; [compute_done |]. split; [compute_done |].
  split; [compute_done |]. split; [compute_done |].
  apply (second_start_marker zeros 9 [0; MSGTYP_PRG; 1]%Z
           [NOVID1; NOVID2; NOVID3; DEVTYP; ASTNID; 0; MSGTYP_CUR]%Z);
    compute_done.
Defined.

(** ** Diagnostics and what the buffer holds *)

(** The patch does not change what the diagnostics look at. *)
Lemma describe_patch m : describe (patch m) = describe m.
Proof.
  apply describe_ext; unfold patch; by rewrite list_lookup_total_insert_ne.
Qed.

(** The first frame overwrites the start of the block [malloc] returned and
    nothing else. *)
Lemma run_first_frame garbage rm F :
  source_frame F -> length F <= rm ->
  transcode garbage rm F
  = Success ((Fread <$> F)
               ++ describe (F ++ drop (length F) (malloc garbage))
               ++ (Fwrite <$> patch F)).
Proof.
  intros HF Hroom.
  pose proof (source_frame_long F HF) as Hlong.
  destruct (init_ready garbage rm) as (Hp & Hlen & Hrm & Htr).
  unfold transcode.
  replace (run (init garbage rm) F) with (run (init garbage rm) (F ++ []))
    by (by rewrite app_nil_r).
  rewrite run_source_frame by (done || lia).
  cbn [run trace]. rewrite Htr, app_nil_l.
  rewrite <- patch_app by lia. by rewrite describe_patch.
Qed.

(** X8.  The diagnostic of the first frame is chosen from offsets 7, 8, 11
    and 12 of the buffer, whether the frame reaches that far or not.  For
    a frame of fewer than 13 bytes the line therefore depends on memory
    that [malloc] returned and nothing has written yet; for a frame that
    is only a header it depends on nothing else. *)
Theorem diagnostic_reads_past_frame garbage rm F :
  source_frame F -> length F <= rm ->
  exists tr,
    transcode garbage rm F = Success tr
    /\ printed tr = printed (describe (F ++ drop (length F) (malloc garbage)))
    /\ (length F <= 7 -> printed tr = printed (describe (malloc garbage))).
Proof.
  intros HF Hroom. rewrite run_first_frame by done.
  eexists. split; [reflexivity |].
  autorewrite with printed. rewrite app_nil_r. cbn [app]. split; [done |].
  intros Hshort. f_equal.
  pose proof (length_malloc garbage) as Hlen.
  assert (Hfit : length F <= SIZE_SYSEX_BUF)
    by (destruct HF as (? & _ & _ & ? & _); done).
  assert (H : forall i, 7 <= i ->
                (F ++ drop (length F) (malloc garbage)) !!! i
                = malloc garbage !!! i).
  { intros i Hi. rewrite lookup_total_app_r by lia.
    rewrite lookup_total_drop. f_equal. lia. }
  apply describe_ext; apply H; lia.
Qed.

Lemma diagnostic_reads_past_frame_witness :
  let garbage := fun i : nat => if decide (i = 7) then MSGTYP_PRG else 0%Z in
  source_frame (frame source_header) /\ length (frame source_header) <= 7
  /\ exists tr,
       transcode garbage 7 (frame source_header) = Success tr
       /\ printed tr
          = printed (describe (frame source_header
                                 ++ drop (length (frame source_header))
                                         (malloc garbage)))
       /\ (length (frame source_header) <= 7 ->
           printed tr = printed (describe (malloc garbage))).
Proof.
  assert (HF : source_frame (frame source_header)).
  { exists source_header. split; [reflexivity |].
    split; [compute_done |]. split; [compute_done | reflexivity]. }
  cbv zeta. split; [exact HF |]. split; [compute_done |].
  apply (diagnostic_reads_past_frame
           (fun i : nat => if decide (i = 7) then MSGTYP_PRG else 0%Z)
           7 (frame source_header)); [exact HF | compute_done].
Defined.

(** X9.  The buffer is not cleared between frames.  After a frame that has
    offsets 7 to 12, a following frame that is only a header makes the loop
    print the diagnostic of the frame before it a second time, although
    what is written is the short frame. *)
Theorem diagnostic_repeats_after_short_frame garbage rm F1 F2 :
  source_frame F1 -> 12 < length F1 ->
  source_frame F2 -> length F2 <= 7 ->
  length F1 + length F2 <= rm ->
  exists tr,
    transcode garbage rm (F1 ++ F2) = Success tr
    /\ printed tr = printed (describe F1) ++ printed (describe F1)
    /\ written tr = patch F1 ++ patch F2.
Proof.
  intros HF1 Hlong1 HF2 Hshort2 Hroom.
  pose proof (source_frame_long F2 HF2) as Hlong2.
  assert (Hfit1 : length F1 <= SIZE_SYSEX_BUF)
    by (destruct HF1 as (? & _ & _ & ? & _); done).
  destruct (init_ready garbage rm) as (Hp & Hlen & Hrm & Htr).
  unfold transcode. rewrite run_source_frame by (done || lia).
  set (old := patch F1 ++ drop (length F1) (buf (init garbage rm))).
  assert (Hold : length old = SIZE_SYSEX_BUF).
  { unfold old. rewrite length_app, length_patch, length_drop. lia. }
  match goal with
  | |- context [run ?s F2] =>
      replace (run s F2) with (run s (F2 ++ [])) by (by rewrite app_nil_r)
  end.
  rewrite run_source_frame; [| done | done | done | simpl; lia].
  cbn [run trace buf]. eexists. split; [reflexivity |].
  rewrite Htr. split.
  - autorewrite with printed. rewrite !app_nil_r. cbn [printed flat_map app].
    assert (H1 : describe old = describe F1) by (by apply describe_frame).
    assert (H2 : describe (patch F2 ++ drop (length F2) old) = describe old).
    { apply describe_ext;
        (rewrite lookup_total_app_r by (rewrite length_patch; lia));
        rewrite length_patch, lookup_total_drop; f_equal; lia. }
    by rewrite H2, H1.
  - autorewrite with written. simpl. by rewrite ?app_nil_r.
Qed.

Lemma diagnostic_repeats_after_short_frame_witness :
  source_frame program_dump /\ 12 < length program_dump
  /\ source_frame (frame source_header) /\ length (frame source_header) <= 7
  /\ length program_dump + length (frame source_header) <= 149
  /\ exists tr,
       transcode zeros 149 (program_dump ++ frame source_header) = Success tr
       /\ printed tr
          = printed (describe program_dump) ++ printed (describe program_dump)
       /\ written tr = patch program_dump ++ patch (frame source_header).
Proof.
  assert (HF : source_frame (frame source_header)).
  { exists source_header. split; [reflexivity |].
    split; [compute_done |]. split; [compute_done | reflexivity]. }
  split; [exact program_dump_source |]. split; [compute_done |].
  split; [exact HF |]. split; [compute_done |]. split; [compute_done |].
  apply (diagnostic_repeats_after_short_frame zeros 149 program_dump
           (frame source_header));
    [exact program_dump_source | compute_done | exact HF | compute_done
    | compute_done].
Defined.

Lemma run_frames_printed Fs : forall st rest,
  Forall (fun F => source_frame F /\ 12 < length F) Fs -> bufAddr st = 0 ->
  length (buf st) = SIZE_SYSEX_BUF -> length (concat Fs) <= room st ->
  exists st',
    run st (concat Fs ++ rest) = run st' rest
    /\ bufAddr st' = 0 /\ length (buf st') = SIZE_SYSEX_BUF
    /\ room st' = room st - length (concat Fs)
    /\ printed (trace st')
       = printed (trace st) ++ concat ((fun F => printed (describe F)) <$> Fs).
Proof.
  induction Fs as [|F Fs IH]; intros st rest HFs Hp Hlen Hroom.
  - exists st. simpl. rewrite !app_nil_r. repeat split; try done. lia.
  - inversion HFs as [|? ? [HF Hlong] HFs']; subst.
    simpl in Hroom. rewrite length_app in Hroom.
    assert (Hfit : length F <= SIZE_SYSEX_BUF)
      by (destruct HF as (? & _ & _ & ? & _); done).
    simpl concat. rewrite <- app_assoc.
    rewrite run_source_frame by (done || lia).
    match goal with |- context [run ?s (concat Fs ++ rest)] => set (st1 := s) end.
    destruct (IH st1 rest) as (st' & Hrun & Hp' & Hlen' & Hrm' & Hpr);
      [done | done | | | ].
    + unfold st1. simpl. rewrite length_app, length_patch, length_drop. lia.
    + unfold st1. simpl. lia.
    + exists st'. split; [done |]. split; [done |]. split; [done |].
      split; [rewrite Hrm'; unfold st1; simpl; rewrite length_app; lia |].
      rewrite Hpr. unfold st1. cbn [trace].
      autorewrite with printed. rewrite describe_frame by done.
      rewrite !app_nil_r. simpl. by rewrite <- app_assoc.
Qed.

(** X10.  For a stream of source frames that all have offsets 7 to 12,
    stdout receives, in the order of the frames, exactly the line each
    frame selects by its own message type, bank-select mode, bank and
    program number (no line for a message type other than 0, 1 and 2, or a
    mode other than 0 and 1), and nothing else. *)
Theorem diagnostics_follow_frames garbage rm Fs :
  Forall (fun F => source_frame F /\ 12 < length F) Fs ->
  length (concat Fs) <= rm ->
  exists tr,
    transcode garbage rm (concat Fs) = Success tr
    /\ printed tr = concat ((fun F => printed (describe F)) <$> Fs)
    /\ length (printed tr) <= length Fs.
Proof.
  intros HFs Hroom.
  destruct (init_ready garbage rm) as (Hp & Hlen & Hrm & Htr).
  destruct (run_frames_printed Fs (init garbage rm) [] HFs Hp Hlen)
    as (st' & Hrun & _ & _ & _ & Hpr); [lia |].
  rewrite app_nil_r in Hrun. rewrite Htr in Hpr. simpl in Hpr.
  exists (trace st'). unfold transcode. rewrite Hrun. split; [done |].
  split; [done |]. rewrite Hpr. clear.
  induction Fs as [|F Fs IH]; [done |].
  rewrite fmap_cons. cbn [concat length]. rewrite length_app.
  destruct (describe_cases F) as [-> | [line ->]];
    cbn [printed flat_map app length]; lia.
Qed.

Lemma diagnostics_follow_frames_witness :
  let Fs := [program_dump; pair_dump] in
  Forall (fun F => source_frame F /\ 12 < length F) Fs
  /\ length (concat Fs) <= 412
  /\ exists tr,
       transcode zeros 412 (concat Fs) = Success tr
       /\ printed tr = concat ((fun F => printed (describe F)) <$> Fs)
       /\ length (printed tr) <= length Fs.
Proof.
  assert (HFs : Forall (fun F => source_frame F /\ 12 < length F)
                       [program_dump; pair_dump]).
  { constructor; [split; [exact program_dump_source | compute_done] |].
    constructor; [split; [exact pair_dump_source | compute_done] |].
    constructor. }
  cbv zeta. split; [exact HFs |]. split; [compute_done |].
  apply (diagnostics_follow_frames zeros 412 [program_dump; pair_dump]);
    [exact HFs | compute_done].
Defined.

(** X11.  However long the input, [counter] never exceeds the cursor by
    more than the size of the buffer while the loop is running: the write
    loop has used it as an index bound whenever the cursor was reset.  So
    it stays below twice the size of the buffer, the cursor never leaves
    the buffer by more than one past its end, and [counter++] cannot
    overflow an [int]. *)
Theorem counter_stays_small garbage rm input st :
  after (init garbage rm) input = Some st ->
  (-1 <= counter st < 2 * Z.of_nat SIZE_SYSEX_BUF)%Z
  /\ bufAddr st <= SIZE_SYSEX_BUF
  /\ (- 2 ^ 31 <= counter st + 1 < 2 ^ 31)%Z.
Proof.
  intros H. apply after_in_range in H; [| apply init_in_range].
  revert H. unfold counter_in_range, SIZE_SYSEX_BUF. simpl. lia.
Qed.

Lemma counter_stays_small_witness :
  exists st,
    after (init zeros 142) (program_dump ++ [0x00; 0x01; SOX]%Z) = Some st
    /\ (-1 <= counter st < 2 * Z.of_nat SIZE_SYSEX_BUF)%Z
    /\ bufAddr st <= SIZE_SYSEX_BUF
    /\ (- 2 ^ 31 <= counter st + 1 < 2 ^ 31)%Z.
Proof.
  destruct (after (init zeros 142) (program_dump ++ [0x00; 0x01; SOX]%Z))
    as [st |] eqn:Hafter; [| vm_compute in Hafter; discriminate Hafter].
  exists st. split; [reflexivity |].
  exact (counter_stays_small zeros 142 (program_dump ++ [0x00; 0x01; SOX]%Z)
           st Hafter).
Defined.

(** * Properties of [main] as a whole *)

Lemma main_cases argv w :
  (* no argument vector at all *)
  (argv = [] /\ main argv w = Report None [] [] [])
  (* too few arguments *)
  \/ (exists prog, 0 < length argv <= ARG_POS_OUTPUTFILE
                   /\ nth ARG_POS_EXECUTABLE argv EmptyString = prog
                   /\ main argv w = Report (Some EXIT_FAILURE) [] [] (usage prog))
  \/ (ARG_POS_OUTPUTFILE < length argv /\
      let infilename := nth ARG_POS_INPUTFILE argv EmptyString in
      let outfilename := nth ARG_POS_OUTPUTFILE argv EmptyString in
      let calls := [Fopen infilename "rb"; Fopen outfilename "wb"] in
      (* the input name does not fit *)
      (SIZE_FILENAME <= String.length infilename
       /\ main argv w = Report None [] [] [])
      (* the input does not open *)
      \/ (fopen_rb w infilename = None
          /\ main argv w = Report (Some EXIT_FAILURE) [Fopen infilename "rb"] []
                                  [open_error infilename])
      \/ (exists input, fopen_rb w infilename = Some input /\
          (* the output name does not fit *)
          ((SIZE_FILENAME <= String.length outfilename
            /\ main argv w = Report None [Fopen infilename "rb"] [] [])
           (* the output does not open *)
           \/ (fopen_wb w outfilename = None
               /\ main argv w = Report (Some EXIT_FAILURE) calls []
                                       [open_error outfilename])
           \/ (exists rm, fopen_wb w outfilename = Some rm /\
               (* no buffer *)
               ((heap w = None /\ main argv w = Report None calls [] [])
                (* the loop *)
                \/ (exists garbage, heap w = Some garbage /\
                    main argv w
                    = match transcode garbage rm input with
                      | Success tr => Report (Some EXIT_SUCCESS) calls tr []
                      | Failure e tr =>
                          Report (Some EXIT_FAILURE) calls tr
                                 [stderr_line infilename e]
                      | Undefined tr => Report None calls tr []
                      end)))))).
Proof.
  unfold main. destruct argv as [|prog argv']; [by left | right].
  case_decide as Hargs.
  - left. exists prog. simpl in *. repeat split; [lia | done].
  - right. split; [lia |]. cbv zeta.
    case_decide; [by left | right].
    destruct (fopen_rb w _) as [input |]; [right | by left].
    exists input. split; [done |].
    case_decide; [by left | right].
    destruct (fopen_wb w _) as [rm |]; [right | by left].
    exists rm. split; [done |].
    destruct (heap w) as [garbage |]; [right | by left].
    by exists garbage.
Qed.

(** X12.  [main] touches the files in a fixed order.  With fewer than two
    file arguments it calls [fopen] for neither.  It calls [fopen] for the
    output file only after the input file has been opened, so a wrong input
    path leaves an existing output file alone; and the loop reads or writes
    a byte only after both files have been opened. *)
Theorem main_opens_input_first argv w :
  (length argv <= ARG_POS_OUTPUTFILE ->
   opened (main argv w) = [] /\ loop_trace (main argv w) = [])
  /\ (forall name, Fopen name "wb" ∈ opened (main argv w) ->
      name = nth ARG_POS_OUTPUTFILE argv EmptyString
      /\ opened (main argv w)
         = [Fopen (nth ARG_POS_INPUTFILE argv EmptyString) "rb"; Fopen name "wb"]
      /\ exists input,
           fopen_rb w (nth ARG_POS_INPUTFILE argv EmptyString) = Some input)
  /\ (loop_trace (main argv w) <> [] ->
      exists input rm,
        fopen_rb w (nth ARG_POS_INPUTFILE argv EmptyString) = Some input
        /\ fopen_wb w (nth ARG_POS_OUTPUTFILE argv EmptyString) = Some rm).
Proof.
  destruct (main_cases argv w)
    as [[-> ->] | [(prog & Hlen & _ & ->)
       | (Hlen & [[_ ->] | [[Hin ->]
          | (input & Hin & [[_ ->] | [[Hout ->]
             | (rm & Hout & [[_ ->] | (garbage & _ & ->)])]])]])]];
    try destruct (transcode garbage rm input) as [tr | e tr | tr];
    cbn [opened loop_trace].
  all: split; [intros Hshort; first [done | lia] |].
  all: split; [| intros Hloop; first [done | exists input, rm; done]].
  all: intros name Hname.
  all: repeat (apply elem_of_cons in Hname as [Hname | Hname];
               [try discriminate Hname |]).
  all: try (by apply elem_of_nil in Hname).
  all: injection Hname as ->.
  all: repeat split; try done; exists input; done.
Qed.

(** X13.  The value [main] returns and stderr agree on every path:
    [EXIT_SUCCESS] is returned only when nothing was printed on stderr, and
    every [EXIT_FAILURE] comes with a message there.  A successful return
    means that the loop consumed the whole input file. *)
Theorem main_status_and_stderr argv w :
  (status (main argv w) = Some EXIT_SUCCESS -> stderr (main argv w) = [])
  /\ (status (main argv w) = Some EXIT_FAILURE -> stderr (main argv w) <> [])
  /\ (status (main argv w) = Some EXIT_SUCCESS ->
      exists input,
        fopen_rb w (nth ARG_POS_INPUTFILE argv EmptyString) = Some input
        /\ reads (loop_trace (main argv w)) = input).
Proof.
  destruct (main_cases argv w)
    as [[-> ->] | [(prog & Hlen & _ & ->)
       | (Hlen & [[_ ->] | [[Hin ->]
          | (input & Hin & [[_ ->] | [[Hout ->]
             | (rm & Hout & [[_ ->] | (garbage & _ & ->)])]])]])]];
    try destruct (transcode garbage rm input) as [tr | e tr | tr] eqn:Hrun;
    cbn [status stderr loop_trace]; repeat split; try done.
  intros _. exists input. split; [done |].
  unfold transcode in Hrun.
  destruct (run_reads input (init garbage rm)) as (k & Hk & Hall).
  rewrite Hrun in Hk. simpl in Hk. rewrite Hk, (Hall tr Hrun).
  apply firstn_all.
Qed.

(** X14.  End to end: called with an input file name and an output file
    name that fit their arrays (further arguments are ignored), an input
    file that holds source frames back to back and an output stream on
    which [fwrite] returns 1 for at least as many calls as the input has
    bytes, [main] opens the input, then the output, reads the whole input,
    writes the frames in order, each with offset 5 set to 0x41 and every
    other byte as it was, prints nothing on stderr and returns
    [EXIT_SUCCESS]. *)
Theorem main_converts_frames w prog infilename outfilename more Fs rm garbage :
  String.length infilename < SIZE_FILENAME ->
  String.length outfilename < SIZE_FILENAME ->
  fopen_rb w infilename = Some (concat Fs) ->
  fopen_wb w outfilename = Some rm -> heap w = Some garbage ->
  Forall source_frame Fs -> length (concat Fs) <= rm ->
  let r := main (prog :: infilename :: outfilename :: more) w in
  status r = Some EXIT_SUCCESS
  /\ opened r = [Fopen infilename "rb"; Fopen outfilename "wb"]
  /\ written (loop_trace r) = concat ((fun F => <[5 := KSTNID]> F) <$> Fs)
  /\ reads (loop_trace r) = concat Fs
  /\ stderr r = [].
Proof.
  intros Hin Hout Hrb Hwb Hheap HFs Hroom. cbv zeta.
  destruct (init_ready garbage rm) as (Hp & Hlen & Hrm & Htr).
  destruct (run_frames Fs (init garbage rm) [] HFs Hp Hlen)
    as (st' & Hrun & _ & _ & Hw & _); [lia |].
  rewrite app_nil_r in Hrun. cbn [run] in Hrun.
  unfold main. cbn [length nth ARG_POS_INPUTFILE ARG_POS_OUTPUTFILE].
  case_decide as Hargs; [unfold ARG_POS_OUTPUTFILE in Hargs; simpl in Hargs; lia |].
  case_decide; [lia |]. rewrite Hrb.
  case_decide; [lia |]. rewrite Hwb, Hheap.
  unfold transcode. rewrite Hrun. cbn [status opened loop_trace stderr].
  rewrite Hw, Htr. repeat split; try done.
  destruct (run_reads (concat Fs) (init garbage rm)) as (k & Hk & Hall).
  rewrite Hrun in Hk. simpl in Hk. rewrite Hk, (Hall _ Hrun).
  apply firstn_all.
Qed.

Lemma main_converts_frames_witness :
  let w := World (fun name => if String.eqb name "in.syx"
                              then Some (concat [program_dump; pair_dump])
                              else None)
                 (fun _ => Some 1000) (Some zeros) in
  let Fs := [program_dump; pair_dump] in
  String.length "in.syx" < SIZE_FILENAME
  /\ String.length "out.syx" < SIZE_FILENAME
  /\ fopen_rb w "in.syx" = Some (concat Fs)
  /\ fopen_wb w "out.syx" = Some 1000 /\ heap w = Some zeros
  /\ Forall source_frame Fs /\ length (concat Fs) <= 1000
  /\ (let r := main ["A2Vstation"; "in.syx"; "out.syx"]%string w in
      status r = Some EXIT_SUCCESS
      /\ opened r = [Fopen "in.syx" "rb"; Fopen "out.syx" "wb"]
      /\ written (loop_trace r)
         = concat ((fun F => <[5 := KSTNID]> F) <$> Fs)
      /\ reads (loop_trace r) = concat Fs
      /\ stderr r = []).
Proof.
  assert (HFs : Forall source_frame [program_dump; pair_dump]).
  { repeat constructor; [exact program_dump_source | exact pair_dump_source]. }
  cbv zeta.
  split; [compute_done |]. split; [compute_done |]. split; [reflexivity |].
  split; [reflexivity |]. split; [reflexivity |]. split; [exact HFs |].
  split; [compute_done |].
  apply (main_converts_frames
           (World (fun name => if String.eqb name "in.syx"
                               then Some (concat [program_dump; pair_dump])
                               else None)
                  (fun _ => Some 1000) (Some zeros))
           "A2Vstation" "in.syx" "out.syx" [] [program_dump; pair_dump]
           1000 zeros);
    [compute_done | compute_done | reflexivity | reflexivity | reflexivity
    | exact HFs | compute_done].
Defined.

(** X15.  A file that does not start with the start marker is found out
    only after the output file has been opened for writing: [main] returns
    [EXIT_FAILURE] with the "is not *.syx file" line naming the input, it
    has read one byte and written none, and the output file has been
    opened all the same. *)
Theorem main_rejects_after_opening_output w prog infilename outfilename more
        b rest rm garbage :
  String.length infilename < SIZE_FILENAME ->
  String.length outfilename < SIZE_FILENAME ->
  fopen_rb w infilename = Some (b :: rest) -> b <> SOX ->
  fopen_wb w outfilename = Some rm -> heap w = Some garbage ->
  main (prog :: infilename :: outfilename :: more) w
  = Report (Some EXIT_FAILURE)
           [Fopen infilename "rb"; Fopen outfilename "wb"]
           [Fread b]
           ["[ERR] " ++ infilename ++ " is not *.syx file" ++ nl]%string.
Proof.
  intros Hin Hout Hrb Hb Hwb Hheap.
  unfold main. cbn [length nth ARG_POS_INPUTFILE ARG_POS_OUTPUTFILE].
  case_decide as Hargs; [unfold ARG_POS_OUTPUTFILE in Hargs; simpl in Hargs; lia |].
  case_decide; [lia |]. rewrite Hrb.
  case_decide; [lia |]. rewrite Hwb, Hheap.
  unfold transcode. cbn [run]. unfold step. cbn [init bufAddr counter trace].
  case_decide as Hsz; [unfold SIZE_SYSEX_BUF in Hsz; simpl in Hsz; lia |].
  case_decide as Hc; [done |].
  exfalso. apply Hc. done.
Qed.

Lemma main_rejects_after_opening_output_witness :
  let w := World (fun _ => Some [0x4D; 0x54; 0x68; 0x64]%Z)
                 (fun _ => Some 0) (Some zeros) in
  String.length "song.mid" < SIZE_FILENAME
  /\ String.length "out.syx" < SIZE_FILENAME
  /\ fopen_rb w "song.mid" = Some [0x4D; 0x54; 0x68; 0x64]%Z
  /\ 0x4D%Z <> SOX
  /\ fopen_wb w "out.syx" = Some 0 /\ heap w = Some zeros
  /\ main ["A2Vstation"; "song.mid"; "out.syx"]%string w
     = Report (Some EXIT_FAILURE)
              [Fopen "song.mid" "rb"; Fopen "out.syx" "wb"]
              [Fread 0x4D%Z]
              ["[ERR] " ++ "song.mid" ++ " is not *.syx file" ++ nl]%string.
Proof.
  cbv zeta.
  split; [compute_done |]. split; [compute_done |]. split; [reflexivity |].
  split; [compute_done |]. split; [reflexivity |]. split; [reflexivity |].
  apply (main_rejects_after_opening_output
           (World (fun _ => Some [0x4D; 0x54; 0x68; 0x64]%Z)
                  (fun _ => Some 0) (Some zeros))
           "A2Vstation" "song.mid" "out.syx" [] 0x4D%Z [0x54; 0x68; 0x64]%Z
           0 zeros);
    [compute_done | compute_done | reflexivity | compute_done
    | reflexivity | reflexivity].
Defined.

(** * The first-byte check *)

Lemma validate_header_failure m e :
  validate m = Some e -> e <> NotASysexFile /\ e <> WriteError.
Proof. unfold validate. repeat case_decide; intros [= <-]; done. Qed.

Lemma write_loop_not_syx m n : forall i rm tr tr',
  write_loop m i n rm tr <> WStop (Failure NotASysexFile tr').
Proof.
  induction n as [|n IH]; intros i rm tr tr'; simpl; [done |].
  case_decide; [done |]. destruct rm; [done | apply IH].
Qed.

(** Once a start marker has been seen, [counter] is never -1 again and the
    check is never taken. *)
Lemma run_counted input : forall st tr,
  (0 <= counter st)%Z -> run st input <> Failure NotASysexFile tr.
Proof.
  induction input as [|b input IH]; intros st tr Hc; simpl; [done |].
  unfold step. case_decide; [done |].
  destruct (decide (_ /\ _)) as [[Hneg _] | _]; [lia |].
  pose proof (count_nonneg (counter st) b Hc) as Hc'.
  case_decide.
  - destruct (validate _) as [e |] eqn:Hv.
    + apply validate_header_failure in Hv as [Hv _]. congruence.
    + destruct (write_loop _ _ _ _ _) eqn:Hw; [by apply IH |].
      intros ->. by apply write_loop_not_syx in Hw.
  - by apply IH.
Qed.

(** X16.  The "is not *.syx file" failure is decided by the first byte of
    the input and by nothing else: the run ends with it exactly when the
    input is not empty and does not start with the start marker, and then
    that byte is all that was read.  No later byte is ever reported this
    way, stray bytes between frames included. *)
Theorem not_sysex_iff_first_byte garbage rm input tr :
  transcode garbage rm input = Failure NotASysexFile tr
  <-> exists b rest, input = b :: rest /\ b <> SOX /\ tr = [Fread b].
Proof.
  unfold transcode. destruct input as [|b rest].
  - split; [done | by intros (? & ? & ? & _)].
  - cbn [run]. unfold step. cbn [init bufAddr counter trace buf room].
    case_decide as Hsz; [unfold SIZE_SYSEX_BUF in Hsz; simpl in Hsz; lia |].
    destruct (decide (_ /\ _)) as [[_ Hb] | Hno].
    + split.
      * intros [= <-]. by exists b, rest.
      * intros (b' & rest' & [= <- <-] & _ & ->). done.
    + assert (Hb : b = SOX).
      { destruct (decide (b = SOX)); [done |]. exfalso. by apply Hno. }
      subst b. split; [| by intros (b' & rest' & [= <- <-] & Hb & _)].
      intros Hrun. exfalso. revert Hrun.
      destruct (decide (SOX = EOX)) as [E | _]; [unfold_consts; discriminate E |].
      apply run_counted. done.
Qed.
